(** * Inflation Impact Simulator: the CPI comparison logic of [inflation_app.py]

    The script loads a (date, CPI) table, sorts it by date, shows a headline
    ten-year change, offers the years of the table for comparison and converts
    the entered amounts with the ratio of two CPI values.

    The numeric expressions of the script are embedded once, over an
    arithmetic interface, and read in two ways:
    - in IEEE 754 binary64 ([b64]), the arithmetic of Python floats and of
      numpy's float64, where every operation rounds to nearest-even and a
      division by zero yields an infinity or a NaN;
    - in exact rational arithmetic ([Q]), the arithmetic of the "real numbers"
      of the specification (a quotient by zero has no meaning there, so every
      statement over [Q] carries a non-zero divisor). *)

From Stdlib Require Import ZArith QArith Qfield Bool List Lia String.
From Stdlib Require Import Sorting.Sorted Sorting.Permutation.
From Stdlib Require Import Floats.SpecFloat.
From Stdlib Require Import Lqa.
Import ListNotations.

Open Scope Z_scope.

(** ** Arithmetic *)

Class Arith (F : Type) := {
  add : F -> F -> F;
  sub : F -> F -> F;
  mul : F -> F -> F;
  div : F -> F -> F;
  of_Z : Z -> F;         (* a Python int met by a float operation *)
  isfinite : F -> bool;  (* neither an infinity nor a NaN *)
  isnan : F -> bool      (* a missing value *)
}.

#[global] Instance Q_arith : Arith Q := {
  add := Qplus;
  sub := Qminus;
  mul := Qmult;
  div := Qdiv;
  of_Z := inject_Z;
  isfinite := fun _ => true;
  isnan := fun _ => false
}.

(** binary64: 53 bits of precision, exponents below 1024. *)
Definition prec : Z := 53.
Definition emax : Z := 1024.

Definition b64 : Type := spec_float.

Definition is_inf_or_nan (x : b64) : bool :=
  match x with
  | S754_infinity _ | S754_nan => true
  | _ => false
  end.

Definition is_zero (x : b64) : bool :=
  match x with
  | S754_zero _ => true
  | _ => false
  end.

#[global] Instance b64_arith : Arith b64 := {
  add := SFadd prec emax;
  sub := SFsub prec emax;
  mul := SFmul prec emax;
  div := SFdiv prec emax;
  of_Z := fun z => binary_normalize prec emax z 0 false;
  isfinite := fun x => negb (is_inf_or_nan x);
  isnan := fun x => match x with S754_nan => true | _ => false end
}.

(** The double nearest to the decimal [n / 10^k], which is what a decimal
    literal or a parsed CSV field denotes ([n] and [10^k] below 2^53). *)
Definition dec (n : Z) (k : nat) : b64 :=
  SFdiv prec emax (binary_normalize prec emax n 0 false)
                  (binary_normalize prec emax (10 ^ Z.of_nat k) 0 false).

(** ** Outcomes of a script fragment *)

Inductive error : Type :=
| EmptySeries      (* IndexError of [.iloc] on a column with no row *)
| YearNotFound     (* st.error: the selected year is not in the dataset *)
| DivisionByZero   (* ZeroDivisionError *)
| ValueError       (* [list.index] of a value that is not in the list *)
| NameError        (* a variable read before any assignment *)
| IntOfNonFinite   (* OverflowError or ValueError of [int] on inf or NaN *)
| WidgetError.     (* an exception raised inside a widget call *)

Inductive result (A : Type) : Type :=
| Ok : A -> result A
| Err : error -> result A.

Arguments Ok {A} _.
Arguments Err {A} _.

Definition bind {A B : Type} (c : result A) (k : A -> result B) : result B :=
  match c with
  | Ok a => k a
  | Err e => Err e
  end.

Notation "x <- c ;; k" := (bind c (fun x => k))
  (at level 61, c at next level, right associativity).

(** ** Calendar dates *)

Record date : Type := mkdate { year : Z; month : Z; day : Z }.

Definition date_leb (a b : date) : bool :=
  (year a <? year b)
  || ((year a =? year b)
      && ((month a <? month b)
          || ((month a =? month b) && (day a <=? day b)))).

Definition date_le (a b : date) : Prop := date_leb a b = true.
Definition date_lt (a b : date) : Prop := date_leb b a = false.

Definition is_leap (y : Z) : bool :=
  ((y mod 4 =? 0) && negb (y mod 100 =? 0)) || (y mod 400 =? 0).

Definition days_in_month (y m : Z) : Z :=
  if m =? 2 then (if is_leap y then 29 else 28)
  else if (m =? 4) || (m =? 6) || (m =? 9) || (m =? 11) then 30
  else 31.

(** [d - pd.DateOffset(years=n)]: the same month and day [n] years earlier,
    the day clipped to the length of the month (29 February). *)
Definition sub_years (d : date) (n : Z) : date :=
  let y := year d - n in
  mkdate y (month d) (Z.min (day d) (days_in_month y (month d))).

(** ** The data frame *)

Record row (F : Type) : Type := mkrow { Date : date; CPI : F }.

Arguments mkrow {F} _ _.
Arguments Date {F} _.
Arguments CPI {F} _.

Definition frame (F : Type) : Type := list (row F).

Definition sorted_by_date {F : Type} (df : frame F) : Prop :=
  StronglySorted (fun a b => date_le (Date a) (Date b)) df.

(** [df.sort_values("Date")]: ascending by date. *)
Fixpoint insert_row {F : Type} (r : row F) (l : frame F) : frame F :=
  match l with
  | [] => [r]
  | x :: t =>
      if date_leb (Date r) (Date x) then r :: x :: t
      else x :: insert_row r t
  end.

Definition sort_values {F : Type} (rows : frame F) : frame F :=
  fold_right insert_row [] rows.

(** [s.iloc[-1]] and [s.iloc[0]]: positional access raises on an empty
    column. *)
Fixpoint iloc_last {A : Type} (l : list A) : result A :=
  match l with
  | [] => Err EmptySeries
  | [x] => Ok x
  | _ :: t => iloc_last t
  end.

Definition iloc_first {A : Type} (l : list A) : result A :=
  match l with
  | [] => Err EmptySeries
  | x :: _ => Ok x
  end.

(** [s.max()] on a date column; [None] is NaT, the maximum of no date. *)
Fixpoint date_max (l : list date) : option date :=
  match l with
  | [] => None
  | d :: t =>
      match date_max t with
      | None => Some d
      | Some m => Some (if date_leb m d then d else m)
      end
  end.

(** [d <= target]; every comparison with NaT is false. *)
Definition on_or_before (target : option date) (d : date) : bool :=
  match target with
  | Some t => date_leb d t
  | None => false
  end.

(** [df["Date"].dt.year.values] *)
Definition year_values {F : Type} (df : frame F) : list Z :=
  map (fun r => year (Date r)) df.

(** [Series.unique()]: the distinct values in order of first appearance. *)
Fixpoint unique (l : list Z) : list Z :=
  match l with
  | [] => []
  | x :: t => x :: filter (fun y => negb (y =? x)) (unique t)
  end.

(** [list.sort(reverse=True)] *)
Fixpoint insert_desc (y : Z) (l : list Z) : list Z :=
  match l with
  | [] => [y]
  | x :: t => if x <? y then y :: x :: t else x :: insert_desc y t
  end.

Definition sort_desc (l : list Z) : list Z := fold_right insert_desc [] l.

(** [list.index(v)] *)
Fixpoint index (v : Z) (l : list Z) : result nat :=
  match l with
  | [] => Err ValueError
  | x :: t => if x =? v then Ok 0%nat else i <- index v t ;; Ok (S i)
  end.

Section Script.

Context {F : Type} `{Arith F}.

(** *** Headline: lines 51-59 *)

Definition latest_cpi (df : frame F) : result F :=
  iloc_last (map CPI df).

Definition ten_years_ago (df : frame F) : option date :=
  option_map (fun d => sub_years d 10) (date_max (map Date df)).

(** [df[df["Date"] <= target]["CPI"]] *)
Definition closest_past (df : frame F) (target : option date) : list F :=
  map CPI (filter (fun r => on_or_before target (Date r)) df).

Definition past_cpi (df : frame F) (target : option date) : result F :=
  match closest_past df target with
  | [] => iloc_first (map CPI df)
  | _ :: _ => iloc_last (closest_past df target)
  end.

Definition percent_change (value_new value_old : F) : F :=
  mul (div (sub value_new value_old) value_old) (of_Z 100).

Definition cpi_change (df : frame F) : result F :=
  latest <- latest_cpi df ;;
  past <- past_cpi df (ten_years_ago df) ;;
  Ok (percent_change latest past).

(** *** Year selection: lines 78-80 *)

Definition years (df : frame F) : list Z :=
  sort_desc (unique (year_values df)).

(** [years[1:]], the options of the select box. *)
Definition year_options (df : frame F) : list Z := tl (years df).

(** *** CPI of the comparison year: lines 83-86 *)

(** The builtin [sum], which starts from the int 0. *)
Definition sum (xs : list F) : F := fold_left add xs (of_Z 0).

(** numpy's sum of a float array, which [Series.mean()] relies on.  Fewer
    than eight values are added from left to right.  Up to 128 values are
    added into eight running sums, block after block of eight; the eight
    sums are combined pairwise and the values left over are added one by
    one.  A longer array is cut in two near its middle, at a multiple of
    eight, and the sums of the two parts are added. *)
Fixpoint zip_add (r block : list F) : list F :=
  match r, block with
  | x :: r', y :: block' => add x y :: zip_add r' block'
  | _, [] => r
  | [], _ :: _ => []
  end.

Fixpoint add_blocks (blocks : nat) (r a : list F) : list F * list F :=
  match blocks with
  | O => (r, a)
  | S b => add_blocks b (zip_add r (firstn 8 a)) (skipn 8 a)
  end.

Definition combine8 (r : list F) : F :=
  match r with
  | [r0; r1; r2; r3; r4; r5; r6; r7] =>
      add (add (add r0 r1) (add r2 r3)) (add (add r4 r5) (add r6 r7))
  | _ => fold_left add r (of_Z 0)   (* not met: there are eight sums *)
  end.

Definition block_sum (a : list F) : F :=
  let '(r, rest) :=
    add_blocks (List.length a / 8 - 1) (firstn 8 a) (skipn 8 a) in
  fold_left add rest (combine8 r).

Fixpoint pairwise_sum_rec (fuel : nat) (a : list F) : F :=
  let n := List.length a in
  if (n <? 8)%nat then fold_left add a (of_Z 0)
  else if (n <=? 128)%nat then block_sum a
  else
    match fuel with
    | O => block_sum a              (* not met: see [pairwise_sum_fuel] *)
    | S fuel' =>
        let n2 := (n / 2 - (n / 2) mod 8)%nat in
        add (pairwise_sum_rec fuel' (firstn n2 a))
            (pairwise_sum_rec fuel' (skipn n2 a))
    end.

Definition pairwise_sum (a : list F) : F :=
  pairwise_sum_rec (List.length a) a.

(** [ndarray.sum()]: the reduction starts from zero and adds the pairwise
    sum of the array. *)
Definition ndarray_sum (a : list F) : F := add (of_Z 0) (pairwise_sum a).

(** [Series.mean()] of a float column, as pandas computes it with
    [skipna=True] and without the optional bottleneck accelerator: missing
    values are replaced by zero for the sum and left out of the count, and
    the mean is the sum over the count (0/0, a NaN, when nothing is
    present). *)
Definition fill_missing (xs : list F) : list F :=
  map (fun x => if isnan x then of_Z 0 else x) xs.

Definition count_present (xs : list F) : nat :=
  List.length (filter (fun x => negb (isnan x)) xs).

Definition mean (xs : list F) : F :=
  div (ndarray_sum (fill_missing xs)) (of_Z (Z.of_nat (count_present xs))).

(** The arithmetic mean in the specification's words: the sum of all the
    values over their number. *)
Definition arithmetic_mean (xs : list F) : F :=
  div (sum xs) (of_Z (Z.of_nat (List.length xs))).

(** [df[df["Date"].dt.year == y]["CPI"]] *)
Definition year_cpis (df : frame F) (y : Z) : list F :=
  map CPI (filter (fun r => year (Date r) =? y) df).

(** The error outcome stands for the branch that reports the year as
    unavailable and binds nothing. *)
Definition past_cpi_year (df : frame F) (y : Z) : result F :=
  if existsb (fun v => v =? y) (year_values df)
  then Ok (mean (year_cpis df y))
  else Err YearNotFound.

(** *** Prediction: lines 121-148 *)

Definition total_today (category_inputs : list (string * F)) : F :=
  sum (map snd category_inputs).

Definition total_past (total_today past_cpi_year latest_cpi : F) : F :=
  div (mul total_today past_cpi_year) latest_cpi.

Definition old_value (amount past_cpi_year latest_cpi : F) : F :=
  div (mul amount past_cpi_year) latest_cpi.

Definition old_values (category_inputs : list (string * F))
           (past_cpi_year latest_cpi : F) : list (string * F) :=
  map (fun kv => (fst kv, old_value (snd kv) past_cpi_year latest_cpi))
      category_inputs.

Record prediction : Type := mkprediction {
  shown_total_today : F;
  shown_total_past : F;
  shown_old_values : list (string * F)
}.

(** The button block up to the breakdown (the chart is left out).  The float
    arithmetic raises nothing; the only step that can raise is
    [int(total_today)] in the explanation, on a total that is not finite. *)
Definition predict (category_inputs : list (string * F))
           (past_cpi_year latest_cpi : F) : result prediction :=
  let today := total_today category_inputs in
  let past := total_past today past_cpi_year latest_cpi in
  if isfinite today
  then Ok (mkprediction today past
             (old_values category_inputs past_cpi_year latest_cpi))
  else Err IntOfNonFinite.

(** *** One run of the script *)

(** What the page supplies to a run: the current year, the select box
    (options and default index in, selected option out; [None] is Python's
    None), the amounts entered per category and the state of the button. *)
Record widgets : Type := mkwidgets {
  now_year : Z;
  selectbox : list Z -> nat -> result (option Z);
  category_inputs : list (string * F);
  button : bool
}.

Record page : Type := mkpage {
  headline : F;
  comparison_year : option Z;
  message : option error;
  predicted : option prediction
}.

(** Lines 83-86 at the selected value; None belongs to no column of
    years. *)
Definition lookup_year (df : frame F) (cy : option Z) : result F :=
  match cy with
  | Some y => past_cpi_year df y
  | None => Err YearNotFound
  end.

(** A run either stops at the first exception or renders the page.  When
    the year is reported as unavailable, [past_cpi_year] stays unbound and
    the button block stops at its first use. *)
Definition app (w : widgets) (df : frame F) : result page :=
  latest <- latest_cpi df ;;
  past <- past_cpi df (ten_years_ago df) ;;
  let change := percent_change latest past in
  i <- index (now_year w - 10) (years df) ;;
  cy <- selectbox w (year_options df) i ;;
  match lookup_year df cy with
  | Ok cpi_year =>
      if button w then
        p <- predict (category_inputs w) cpi_year latest ;;
        Ok (mkpage change cy None (Some p))
      else Ok (mkpage change cy None None)
  | Err e =>
      if button w then Err NameError
      else Ok (mkpage change cy (Some e) None)
  end.

End Script.

Arguments prediction F : clear implicits.
Arguments widgets F : clear implicits.
Arguments page F : clear implicits.

(** ** Example data *)

(** The two-observation series of the headline scenario. *)
Definition two_points (F : Type) `{Arith F} : frame F :=
  [mkrow (mkdate 2015 1 1) (of_Z 100); mkrow (mkdate 2024 1 1) (of_Z 400)].

(** Two observations inside one year. *)
Definition one_year (F : Type) `{Arith F} : frame F :=
  [mkrow (mkdate 2015 3 1) (of_Z 90); mkrow (mkdate 2015 9 1) (of_Z 110)].



(** A frame whose observation of ten years before holds a CPI of zero. *)
Definition zero_past : frame b64 :=
  [mkrow (mkdate 2010 1 1) (of_Z 0); mkrow (mkdate 2024 1 1) (of_Z 400)].

(** The seven entries of [category_inputs], each with the first subcategory
    of its category, all holding the same amount. *)
Definition same_amounts {F : Type} (amount : F) : list (string * F) :=
  map (fun k => (k, amount))
      ["Food (Bag of Rice)"; "Transport (Fuel)"; "Housing (Rent)";
       "Clothing (Casual Wear)"; "Education (Tuition)"; "Health (Drugs)";
       "Electronics (Phone)"]%string.

(** [st.selectbox] on its first rendering: with no option it returns None
    without raising; otherwise it returns the option at the default index
    and raises when the index is out of range. *)
Definition default_selectbox (options : list Z) (i : nat)
  : result (option Z) :=
  match options with
  | [] => Ok None
  | _ :: _ =>
      match nth_error options i with
      | Some y => Ok (Some y)
      | None => Err WidgetError
      end
  end.

(** What a select box returns: one of the options it was given, or None when
    it was given none. *)
Definition selectbox_returns_an_option {F : Type} (w : widgets F) : Prop :=
  forall options i cy,
    selectbox w options i = Ok cy ->
    (exists y, cy = Some y /\ In y options) \/ (cy = None /\ options = []).

(** ** The specification's operations, in its own words *)

(** [convert(amount, cpi_from, cpi_to)] *)
Definition spec_convert {F : Type} `{Arith F}
           (amount cpi_from cpi_to : F) : F :=
  div (mul amount cpi_to) cpi_from.

(** The yearly average, in exact arithmetic: the sum of the CPI values of the
    observations of the year, over their number. *)
Fixpoint cpi_sum_of_year (df : frame Q) (y : Z) : Q :=
  match df with
  | [] => 0%Q
  | r :: t =>
      if year (Date r) =? y then (CPI r + cpi_sum_of_year t y)%Q
      else cpi_sum_of_year t y
  end.

Fixpoint count_of_year {F : Type} (df : frame F) (y : Z) : nat :=
  match df with
  | [] => O
  | r :: t =>
      if year (Date r) =? y then S (count_of_year t y)
      else count_of_year t y
  end.

Definition spec_average_for_year (df : frame Q) (y : Z) : Q :=
  (cpi_sum_of_year df y / inject_Z (Z.of_nat (count_of_year df y)))%Q.

(** ** The rest of the script *)

(** A calendar date that exists. *)
Definition valid_date (d : date) : bool :=
  (1 <=? month d) && (month d <=? 12)
  && (1 <=? day d) && (day d <=? days_in_month (year d) (month d)).


Definition is_finite_nonzero (x : b64) : bool :=
  match x with
  | S754_finite _ _ _ => true
  | _ => false
  end.

(** *** The category inputs: lines 89-118 *)

(** The table of subcategories (lines 91-99). *)
Definition categories : list (string * list string) :=
  [("Food", ["Bag of Rice"; "Bread"; "Chicken"; "Yam"; "Beans"]);
   ("Transport", ["Fuel"; "Public Transport"; "Taxi"]);
   ("Housing", ["Rent"; "Maintenance"; "Mortgage"]);
   ("Clothing", ["Casual Wear"; "Formal Wear"; "Shoes"]);
   ("Education", ["Tuition"; "Books"; "Stationery"]);
   ("Health", ["Drugs"; "Hospital Bills"; "Insurance"]);
   ("Electronics", ["Phone"; "Laptop"; "TV"; "Tablet"])]%string.

(** The categories of the three columns, in the order the loops visit
    them. *)
Definition column_categories : list (list string) :=
  [["Food"; "Transport"]; ["Housing"; "Clothing"];
   ["Education"; "Health"; "Electronics"]]%string.

(** [d[k]]; [None] is the KeyError of a missing key. *)
Fixpoint dict_get {V : Type} (k : string) (d : list (string * V))
  : option V :=
  match d with
  | [] => None
  | (k', v) :: t => if String.eqb k' k then Some v else dict_get k t
  end.

(** [d[k] = v] on a dict kept in insertion order: an existing key keeps its
    place and takes the new value, a new key goes last. *)
Fixpoint dict_set {V : Type} (k : string) (v : V) (d : list (string * V))
  : list (string * V) :=
  match d with
  | [] => [(k, v)]
  | (k', v') :: t =>
      if String.eqb k' k then (k', v) :: t else (k', v') :: dict_set k v t
  end.

(** [f"{cat} ({sub})"] *)
Definition category_key (cat sub : string) : string :=
  (cat ++ " (" ++ sub ++ ")")%string.

(** The two widgets of a category: the select box of its subcategory (the
    category and the options in, the selection out) and the number entered
    for it. *)
Record category_widgets (F : Type) : Type := mkcategory_widgets {
  subcategory : string -> list string -> string;
  amount_entered : string -> F
}.

Arguments subcategory {F} _ _ _.
Arguments amount_entered {F} _ _.

(** The body of the three loops, for one category. *)
Definition enter_category {F : Type} (ui : category_widgets F)
           (cat : string) (inputs : list (string * F))
  : option (list (string * F)) :=
  match dict_get cat categories with
  | None => None
  | Some subs =>
      let sub := subcategory ui cat subs in
      let val := amount_entered ui cat in
      Some (dict_set (category_key cat sub) val inputs)
  end.

Definition build_category_inputs {F : Type} (ui : category_widgets F)
  : option (list (string * F)) :=
  fold_left
    (fun acc cat =>
       match acc with
       | Some inputs => enter_category ui cat inputs
       | None => None
       end)
    (List.concat column_categories) (Some []).

(** ** Order on dates *)

Lemma date_le_iff (a b : date) :
  date_le a b <->
  year a < year b \/
  (year a = year b /\
   (month a < month b \/ (month a = month b /\ day a <= day b))).
Proof.
  unfold date_le, date_leb.
  rewrite !orb_true_iff, !andb_true_iff, !orb_true_iff, !andb_true_iff.
  rewrite !Z.ltb_lt, !Z.eqb_eq, Z.leb_le.
  tauto.
Qed.

Lemma date_lt_iff (a b : date) : date_lt a b <-> ~ date_le b a.
Proof.
  unfold date_lt, date_le.
  destruct (date_leb b a); split; intros Hx.
  - discriminate.
  - exfalso. apply Hx. reflexivity.
  - discriminate.
  - reflexivity.
Qed.

Lemma date_le_refl (a : date) : date_le a a.
Proof. apply date_le_iff. lia. Qed.

Lemma date_le_trans (a b c : date) :
  date_le a b -> date_le b c -> date_le a c.
Proof. rewrite !date_le_iff. lia. Qed.

Lemma date_le_total (a b : date) : date_le a b \/ date_le b a.
Proof. rewrite !date_le_iff. lia. Qed.

Lemma date_le_antisym (a b : date) : date_le a b -> date_le b a -> a = b.
Proof.
  rewrite !date_le_iff.
  destruct a as [ya ma da], b as [yb mb db]; simpl.
  intros Hab Hba.
  assert (ya = yb /\ ma = mb /\ da = db) as (-> & -> & ->) by lia.
  reflexivity.
Qed.

Lemma date_le_year (a b : date) : date_le a b -> year a <= year b.
Proof. rewrite date_le_iff. lia. Qed.

(** ** Positional access *)

Lemma iloc_last_map {A B : Type} (f : A -> B) (l : list A) :
  iloc_last (map f l) = x <- iloc_last l ;; Ok (f x).
Proof.
  induction l as [| a [| b t] IH]; try reflexivity.
  exact IH.
Qed.

Lemma iloc_last_In {A : Type} (l : list A) (x : A) :
  iloc_last l = Ok x -> In x l.
Proof.
  induction l as [| a [| b t] IH]; simpl; intros E.
  - discriminate.
  - left. congruence.
  - right. apply IH. exact E.
Qed.

Lemma iloc_last_nonempty {A : Type} (l : list A) :
  l <> [] -> exists x, iloc_last l = Ok x.
Proof.
  induction l as [| a [| b t] IH]; intros Hne.
  - contradiction.
  - exists a. reflexivity.
  - destruct IH as [x Hx]; [discriminate |].
    exists x. exact Hx.
Qed.

Lemma iloc_last_sorted {A : Type} (R : A -> A -> Prop) (l : list A) (x : A) :
  (forall a, R a a) ->
  StronglySorted R l -> iloc_last l = Ok x -> forall a, In a l -> R a x.
Proof.
  intros Hrefl Hs.
  induction Hs as [| a t Hs IH Hall]; intros E b Hb.
  - discriminate.
  - destruct t as [| c t'].
    + simpl in E. injection E as <-.
      destruct Hb as [<- | []]. apply Hrefl.
    + assert (E' : iloc_last (c :: t') = Ok x) by exact E.
      destruct Hb as [<- | Hb].
      * rewrite Forall_forall in Hall.
        apply Hall. apply iloc_last_In. exact E'.
      * apply IH; assumption.
Qed.

Lemma StronglySorted_filter_keep {A : Type} (R : A -> A -> Prop)
      (p : A -> bool) (l : list A) :
  StronglySorted R l -> StronglySorted R (filter p l).
Proof.
  induction 1 as [| a t Hs IH Hall]; simpl.
  - constructor.
  - destruct (p a).
    + constructor; [exact IH |].
      rewrite Forall_forall in *.
      intros x Hx. apply filter_In in Hx. apply Hall. tauto.
    + exact IH.
Qed.

Lemma sorted_head_min {F : Type} (r0 : row F) (rest : frame F) :
  sorted_by_date (r0 :: rest) ->
  forall r, In r (r0 :: rest) -> date_le (Date r0) (Date r).
Proof.
  intros Hs r [<- | Hr].
  - apply date_le_refl.
  - apply StronglySorted_inv in Hs. destruct Hs as [_ Hall].
    rewrite Forall_forall in Hall. apply Hall. exact Hr.
Qed.

(** ** The loader yields a sorted frame with the same rows *)

Lemma insert_row_In {F : Type} (r x : row F) (l : frame F) :
  In x (insert_row r l) <-> x = r \/ In x l.
Proof.
  induction l as [| a t IH]; simpl.
  - intuition congruence.
  - destruct (date_leb (Date r) (Date a)); simpl; rewrite ?IH;
      intuition congruence.
Qed.

Lemma insert_row_sorted {F : Type} (r : row F) (l : frame F) :
  sorted_by_date l -> sorted_by_date (insert_row r l).
Proof.
  unfold sorted_by_date.
  induction 1 as [| a t Hs IH Hall]; simpl.
  - repeat constructor.
  - destruct (date_leb (Date r) (Date a)) eqn:E.
    + constructor; [constructor; assumption |].
      constructor; [exact E |].
      rewrite Forall_forall in *.
      intros x Hx. eapply date_le_trans; [exact E | auto].
    + constructor; [exact IH |].
      rewrite Forall_forall in *.
      intros x Hx. apply insert_row_In in Hx.
      destruct Hx as [-> | Hx]; [| auto].
      destruct (date_le_total (Date a) (Date r)) as [Hle | Hle];
        [exact Hle |].
      unfold date_le in Hle. congruence.
Qed.

Lemma sort_values_sorted {F : Type} (rows : frame F) :
  sorted_by_date (sort_values rows).
Proof.
  induction rows as [| r t IH]; simpl.
  - constructor.
  - apply insert_row_sorted. exact IH.
Qed.

Lemma sort_values_In {F : Type} (rows : frame F) (x : row F) :
  In x (sort_values rows) <-> In x rows.
Proof.
  induction rows as [| r t IH]; simpl.
  - tauto.
  - rewrite insert_row_In, IH. intuition congruence.
Qed.

Lemma insert_row_perm {F : Type} (r : row F) (l : frame F) :
  Permutation (r :: l) (insert_row r l).
Proof.
  induction l as [| a t IH]; simpl.
  - apply Permutation_refl.
  - destruct (date_leb (Date r) (Date a)).
    + apply Permutation_refl.
    + apply perm_trans with (a :: r :: t).
      * apply perm_swap.
      * apply perm_skip. exact IH.
Qed.

Lemma sort_values_perm {F : Type} (rows : frame F) :
  Permutation rows (sort_values rows).
Proof.
  induction rows as [| r t IH]; simpl.
  - apply perm_nil.
  - apply perm_trans with (r :: sort_values t).
    + apply perm_skip. exact IH.
    + apply insert_row_perm.
Qed.


(** ** The latest observation and the nearest one on or before a date *)

Section Lookup.

Context {F : Type} `{Arith F}.

Lemma latest_cpi_last (df : frame F) (r : row F) :
  iloc_last df = Ok r -> latest_cpi df = Ok (CPI r).
Proof.
  intros E. unfold latest_cpi. rewrite iloc_last_map, E. reflexivity.
Qed.

Lemma latest_row_max (df : frame F) (r : row F) :
  sorted_by_date df -> iloc_last df = Ok r ->
  forall r', In r' df -> date_le (Date r') (Date r).
Proof.
  intros Hs E.
  apply (iloc_last_sorted (fun a b => date_le (Date a) (Date b)) df r);
    auto using date_le_refl.
Qed.

Lemma date_max_sorted (df : frame F) (r : row F) :
  sorted_by_date df -> iloc_last df = Ok r ->
  date_max (map Date df) = Some (Date r).
Proof.
  intros Hs. revert r.
  induction Hs as [| a t Hs IH Hall]; intros r E.
  - discriminate.
  - destruct t as [| c t'].
    + simpl in E. injection E as <-. reflexivity.
    + assert (E' : iloc_last (c :: t') = Ok r) by exact E.
      change (date_max (map Date (a :: c :: t')))
        with (match date_max (map Date (c :: t')) with
              | None => Some (Date a)
              | Some m => Some (if date_leb m (Date a) then Date a else m)
              end).
      rewrite (IH r E').
      destruct (date_leb (Date r) (Date a)) eqn:Hra; [| reflexivity].
      f_equal. apply date_le_antisym; [| exact Hra].
      rewrite Forall_forall in Hall. apply Hall.
      apply iloc_last_In. exact E'.
Qed.

Lemma closest_past_empty (df : frame F) (t : date) :
  (forall r, In r df -> date_lt t (Date r)) ->
  closest_past df (Some t) = [].
Proof.
  intros Hall. unfold closest_past.
  induction df as [| a l IH]; simpl.
  - reflexivity.
  - rewrite (Hall a (or_introl eq_refl)). apply IH.
    intros r Hr. apply Hall. right. exact Hr.
Qed.

Lemma past_cpi_fallback (df : frame F) (t : date) :
  (forall r, In r df -> date_lt t (Date r)) ->
  past_cpi df (Some t) = iloc_first (map CPI df).
Proof.
  intros Hall. unfold past_cpi.
  rewrite (closest_past_empty df t Hall). reflexivity.
Qed.

Lemma past_cpi_found (df : frame F) (t : date) (r : row F) :
  In r df -> date_le (Date r) t ->
  exists r1,
    iloc_last (filter (fun x => on_or_before (Some t) (Date x)) df) = Ok r1
    /\ past_cpi df (Some t) = Ok (CPI r1).
Proof.
  intros Hin Hle.
  set (kept := filter (fun x => on_or_before (Some t) (Date x)) df).
  assert (Hk : In r kept) by (apply filter_In; split; assumption).
  destruct (iloc_last_nonempty kept) as [r1 E1].
  { intros E0. rewrite E0 in Hk. exact Hk. }
  exists r1. split; [exact E1 |].
  unfold past_cpi, closest_past. fold kept.
  destruct kept as [| k0 kt]; [contradiction |].
  change (map CPI (k0 :: kt)) with (CPI k0 :: map CPI kt).
  cbv iota.
  change (CPI k0 :: map CPI kt) with (map CPI (k0 :: kt)).
  rewrite iloc_last_map, E1. reflexivity.
Qed.

End Lookup.

(** C2.  On a non-empty frame sorted by date, the lookup of lines 53-57 never
    fails: when some observation is dated on or before the target it yields
    the CPI of an observation whose date is the greatest one not after the
    target, and when the target precedes every observation it yields the CPI
    of the earliest observation. *)
Theorem past_cpi_nearest_or_earliest
        (F : Type) (A : Arith F) (df : frame F) (t : date) :
  df <> [] -> sorted_by_date df ->
  ((exists r, In r df /\ date_le (Date r) t) ->
   exists r, In r df /\ date_le (Date r) t
             /\ (forall r', In r' df -> date_le (Date r') t ->
                            date_le (Date r') (Date r))
             /\ past_cpi df (Some t) = Ok (CPI r))
  /\ ((forall r, In r df -> date_lt t (Date r)) ->
      exists r0 rest, df = r0 :: rest
             /\ (forall r', In r' df -> date_le (Date r0) (Date r'))
             /\ past_cpi df (Some t) = Ok (CPI r0)).
Proof.
  intros Hne Hs. split.
  - intros (r & Hin & Hle).
    destruct (past_cpi_found df t r Hin Hle) as (r1 & E1 & Ep).
    pose proof (iloc_last_In _ _ E1) as Hk.
    apply filter_In in Hk. destruct Hk as [Hin1 Hle1].
    exists r1. repeat split; try assumption.
    intros r' Hin' Hle'.
    apply (iloc_last_sorted (fun a b => date_le (Date a) (Date b))
             (filter (fun x => on_or_before (Some t) (Date x)) df) r1).
    + intros a. apply date_le_refl.
    + apply StronglySorted_filter_keep. exact Hs.
    + exact E1.
    + apply filter_In. split; assumption.
  - intros Hall.
    destruct df as [| r0 rest]; [contradiction |].
    exists r0, rest. repeat split.
    + apply sorted_head_min. exact Hs.
    + rewrite (past_cpi_fallback _ t Hall). reflexivity.
Qed.

Lemma past_cpi_nearest_or_earliest_witness :
  (exists r, In r (two_points Q) /\ date_le (Date r) (mkdate 2020 6 15)
             /\ (forall r', In r' (two_points Q) ->
                            date_le (Date r') (mkdate 2020 6 15) ->
                            date_le (Date r') (Date r))
             /\ past_cpi (two_points Q) (Some (mkdate 2020 6 15))
                = Ok (CPI r))
  /\ (exists r0 rest, two_points Q = r0 :: rest
             /\ (forall r', In r' (two_points Q) ->
                            date_le (Date r0) (Date r'))
             /\ past_cpi (two_points Q) (Some (mkdate 2014 1 1))
                = Ok (CPI r0)).
Proof.
  assert (Hne : two_points Q <> []) by discriminate.
  assert (Hs : sorted_by_date (two_points Q)) by (repeat constructor).
  split.
  - apply (past_cpi_nearest_or_earliest Q Q_arith (two_points Q)
             (mkdate 2020 6 15) Hne Hs).
    exists (mkrow (mkdate 2015 1 1) (of_Z 100)).
    split; [left; reflexivity | reflexivity].
  - apply (past_cpi_nearest_or_earliest Q Q_arith (two_points Q)
             (mkdate 2014 1 1) Hne Hs).
    intros r [<- | [<- | []]]; reflexivity.
Defined.

(** C5.  On a non-empty frame sorted by date the latest CPI is the CPI of an
    observation of maximum date.  On the empty frame the positional lookups
    raise, and the run stops at its first lookup, whatever the widgets hold:
    nothing later in the script is evaluated. *)
Theorem latest_cpi_max_or_empty_series
        (F : Type) (A : Arith F) (df : frame F) :
  (df <> [] -> sorted_by_date df ->
   exists r, In r df
             /\ (forall r', In r' df -> date_le (Date r') (Date r))
             /\ latest_cpi df = Ok (CPI r))
  /\ (df = [] ->
      latest_cpi df = Err EmptySeries
      /\ (forall target, past_cpi df target = Err EmptySeries)
      /\ cpi_change df = Err EmptySeries
      /\ (forall w : widgets F, app w df = Err EmptySeries)).
Proof.
  split.
  - intros Hne Hs.
    destruct (iloc_last_nonempty df Hne) as [r E].
    exists r. split; [| split].
    + apply iloc_last_In. exact E.
    + apply latest_row_max; assumption.
    + apply latest_cpi_last. exact E.
  - intros ->. repeat split.
Qed.

Lemma latest_cpi_max_or_empty_series_witness :
  (exists r, In r (two_points Q)
             /\ (forall r', In r' (two_points Q) ->
                            date_le (Date r') (Date r))
             /\ latest_cpi (two_points Q) = Ok (CPI r))
  /\ (latest_cpi (@nil (row Q)) = Err EmptySeries
      /\ (forall target, past_cpi (@nil (row Q)) target = Err EmptySeries)
      /\ cpi_change (@nil (row Q)) = Err EmptySeries
      /\ (forall w : widgets Q, app w [] = Err EmptySeries)).
Proof.
  split.
  - apply (latest_cpi_max_or_empty_series Q Q_arith (two_points Q)).
    + discriminate.
    + repeat constructor.
  - apply (latest_cpi_max_or_empty_series Q Q_arith []). reflexivity.
Defined.





(** ** Distinct years in descending order *)

Lemma unique_In (l : list Z) (y : Z) : In y (unique l) <-> In y l.
Proof.
  induction l as [| x t IH]; simpl.
  - tauto.
  - rewrite filter_In, IH, negb_true_iff, Z.eqb_neq.
    destruct (Z.eq_dec x y); intuition congruence.
Qed.

Lemma unique_NoDup (l : list Z) : NoDup (unique l).
Proof.
  induction l as [| x t IH]; simpl.
  - constructor.
  - constructor.
    + rewrite filter_In, negb_true_iff, Z.eqb_neq. tauto.
    + apply NoDup_filter. exact IH.
Qed.

Lemma insert_desc_In (y z : Z) (l : list Z) :
  In z (insert_desc y l) <-> z = y \/ In z l.
Proof.
  induction l as [| x t IH]; simpl.
  - intuition congruence.
  - destruct (x <? y); simpl; rewrite ?IH; intuition congruence.
Qed.

Lemma insert_desc_sorted (y : Z) (l : list Z) :
  StronglySorted Z.ge l -> StronglySorted Z.ge (insert_desc y l).
Proof.
  induction 1 as [| x t Hs IH Hall]; simpl.
  - repeat constructor.
  - destruct (x <? y) eqn:E.
    + apply Z.ltb_lt in E.
      constructor; [constructor; assumption |].
      constructor; [lia |].
      rewrite Forall_forall in *. intros z Hz.
      specialize (Hall z Hz). lia.
    + apply Z.ltb_ge in E.
      constructor; [exact IH |].
      rewrite Forall_forall in *. intros z Hz.
      apply insert_desc_In in Hz. destruct Hz as [-> | Hz].
      * lia.
      * apply Hall. exact Hz.
Qed.

Lemma insert_desc_NoDup (y : Z) (l : list Z) :
  ~ In y l -> NoDup l -> NoDup (insert_desc y l).
Proof.
  intros Hy Hnd. induction Hnd as [| x t Hx Hnd IH]; simpl.
  - repeat constructor. exact Hy.
  - destruct (x <? y).
    + constructor; [exact Hy |]. constructor; assumption.
    + constructor.
      * rewrite insert_desc_In. simpl in Hy. intuition congruence.
      * apply IH. simpl in Hy. tauto.
Qed.

Lemma sort_desc_In (l : list Z) (y : Z) : In y (sort_desc l) <-> In y l.
Proof.
  induction l as [| x t IH]; simpl.
  - tauto.
  - rewrite insert_desc_In, IH. intuition congruence.
Qed.

Lemma sort_desc_sorted (l : list Z) : StronglySorted Z.ge (sort_desc l).
Proof.
  induction l as [| x t IH]; simpl.
  - constructor.
  - apply insert_desc_sorted. exact IH.
Qed.

Lemma sort_desc_NoDup (l : list Z) : NoDup l -> NoDup (sort_desc l).
Proof.
  induction 1 as [| x t Hx Hnd IH]; simpl.
  - constructor.
  - apply insert_desc_NoDup; [| exact IH].
    rewrite sort_desc_In. exact Hx.
Qed.

Lemma strictly_descending (l : list Z) :
  StronglySorted Z.ge l -> NoDup l -> StronglySorted Z.gt l.
Proof.
  induction 1 as [| x t Hs IH Hall]; intros Hnd.
  - constructor.
  - inversion Hnd as [| ? ? Hx Hnd']; subst.
    constructor; [apply IH; exact Hnd' |].
    rewrite Forall_forall in *. intros z Hz.
    specialize (Hall z Hz).
    assert (z <> x) by (intros ->; contradiction).
    lia.
Qed.

Lemma year_values_In {F : Type} (df : frame F) (y : Z) :
  In y (year_values df) <-> exists r, In r df /\ year (Date r) = y.
Proof.
  unfold year_values. rewrite in_map_iff.
  split; intros (r & H1 & H2); exists r; tauto.
Qed.

Section Years.

Context {F : Type} `{Arith F}.

Lemma years_In (df : frame F) (y : Z) :
  In y (years df) <-> In y (year_values df).
Proof. unfold years. rewrite sort_desc_In, unique_In. tauto. Qed.

Lemma years_NoDup (df : frame F) : NoDup (years df).
Proof. apply sort_desc_NoDup, unique_NoDup. Qed.

Lemma years_descending (df : frame F) : StronglySorted Z.gt (years df).
Proof.
  apply strictly_descending; [apply sort_desc_sorted | apply years_NoDup].
Qed.

Lemma year_options_incl (df : frame F) (y : Z) :
  In y (year_options df) -> In y (year_values df).
Proof.
  intros Hy. apply years_In.
  unfold year_options in Hy.
  destruct (years df) as [| y0 t]; [contradiction | right; exact Hy].
Qed.

End Years.

(** C6.  The list [years] holds exactly the calendar years of the frame, each
    once, in descending order.  For a non-empty frame its head is the most
    recent year (the year of the last observation when the frame is sorted by
    date), and the options offered, [years[1:]], are the other years: the
    distinct years present, descending, without the most recent one. *)
Theorem year_options_distinct_descending_without_latest
        (F : Type) (A : Arith F) (df : frame F) :
  (forall y, In y (years df) <-> exists r, In r df /\ year (Date r) = y)
  /\ NoDup (years df)
  /\ StronglySorted Z.gt (years df)
  /\ NoDup (year_options df)
  /\ StronglySorted Z.gt (year_options df)
  /\ (df <> [] ->
      exists latest_year,
        years df = latest_year :: year_options df
        /\ (exists r, In r df /\ year (Date r) = latest_year)
        /\ (forall r, In r df -> year (Date r) <= latest_year)
        /\ (forall r, sorted_by_date df -> iloc_last df = Ok r ->
                      year (Date r) = latest_year)
        /\ (forall y, In y (year_options df) <->
                      (exists r, In r df /\ year (Date r) = y)
                      /\ y <> latest_year)).
Proof.
  assert (Hin : forall y, In y (years df) <->
                          exists r, In r df /\ year (Date r) = y).
  { intros y. rewrite years_In. apply year_values_In. }
  pose proof (years_NoDup df) as Hnd.
  pose proof (years_descending df) as Hdesc.
  split; [exact Hin |].
  split; [exact Hnd |].
  split; [exact Hdesc |].
  unfold year_options.
  destruct (years df) as [| y0 t] eqn:Ey.
  - split; [constructor |]. split; [constructor |].
    intros Hne. destruct df as [| r0 rest]; [contradiction |].
    exfalso. apply (proj2 (Hin (year (Date r0)))).
    exists r0. split; [left; reflexivity | reflexivity].
  - simpl.
    inversion Hnd as [| ? ? Hy0 Hnd']; subst.
    apply StronglySorted_inv in Hdesc. destruct Hdesc as [Hdesc' Hall].
    rewrite Forall_forall in Hall.
    split; [exact Hnd' |]. split; [exact Hdesc' |].
    intros _. exists y0.
    assert (Hmax : forall r, In r df -> year (Date r) <= y0).
    { intros r Hr.
      assert (Hy : In (year (Date r)) (y0 :: t))
        by (apply Hin; exists r; tauto).
      destruct Hy as [<- | Hy]; [lia |].
      specialize (Hall _ Hy). lia. }
    assert (Hex : exists r, In r df /\ year (Date r) = y0)
      by (apply Hin; left; reflexivity).
    split; [reflexivity |]. split; [exact Hex |]. split; [exact Hmax |].
    split.
    + intros r Hs E.
      destruct Hex as (r1 & Hr1 & <-).
      pose proof (latest_row_max df r Hs E r1 Hr1) as Hle.
      apply date_le_year in Hle.
      pose proof (Hmax r (iloc_last_In _ _ E)). lia.
    + intros y. split.
      * intros Hy. split; [apply Hin; right; exact Hy |].
        intros ->. contradiction.
      * intros [Hy Hneq]. apply Hin in Hy.
        destruct Hy as [<- | Hy]; [congruence | exact Hy].
Qed.

Lemma year_options_distinct_descending_without_latest_witness :
  exists latest_year,
    years (two_points Q) = latest_year :: year_options (two_points Q)
    /\ (exists r, In r (two_points Q) /\ year (Date r) = latest_year)
    /\ (forall r, In r (two_points Q) -> year (Date r) <= latest_year)
    /\ (forall r, sorted_by_date (two_points Q) ->
                  iloc_last (two_points Q) = Ok r ->
                  year (Date r) = latest_year)
    /\ (forall y, In y (year_options (two_points Q)) <->
                  (exists r, In r (two_points Q) /\ year (Date r) = y)
                  /\ y <> latest_year).
Proof.
  apply (year_options_distinct_descending_without_latest
           Q Q_arith (two_points Q)).
  discriminate.
Defined.

(** ** The mean CPI of a calendar year *)

Lemma year_member {F : Type} (df : frame F) (y : Z) :
  existsb (fun v => v =? y) (year_values df) = true <->
  In y (year_values df).
Proof.
  rewrite existsb_exists. split.
  - intros (v & Hv & E). apply Z.eqb_eq in E. subst. exact Hv.
  - intros Hy. exists y. split; [exact Hy | apply Z.eqb_refl].
Qed.

Lemma fold_left_Qplus (xs : list Q) (a : Q) :
  fold_left Qplus xs a == a + fold_left Qplus xs 0%Q.
Proof.
  revert a. induction xs as [| x t IH]; intros a; simpl.
  - ring.
  - rewrite (IH (a + x)%Q), (IH (0 + x)%Q). ring.
Qed.

Section YearMean.

Context {F : Type} `{Arith F}.

Lemma year_cpis_In (df : frame F) (y : Z) (c : F) :
  In c (year_cpis df y) <->
  exists r, In r df /\ year (Date r) = y /\ CPI r = c.
Proof.
  unfold year_cpis. rewrite in_map_iff. split.
  - intros (r & E & Hr). apply filter_In in Hr.
    destruct Hr as [Hr Hy]. apply Z.eqb_eq in Hy. exists r. tauto.
  - intros (r & Hr & Hy & E). exists r. split; [exact E |].
    apply filter_In. split; [exact Hr | apply Z.eqb_eq; exact Hy].
Qed.

Lemma year_cpis_length (df : frame F) (y : Z) :
  List.length (year_cpis df y) = count_of_year df y.
Proof.
  unfold year_cpis.
  induction df as [| r t IH]; simpl.
  - reflexivity.
  - destruct (year (Date r) =? y); simpl; congruence.
Qed.

Lemma year_cpis_nonempty (df : frame F) (y : Z) :
  In y (year_values df) -> year_cpis df y <> [].
Proof.
  intros Hy E. apply year_values_In in Hy.
  destruct Hy as (r & Hr & Hy).
  assert (Hc : In (CPI r) (year_cpis df y))
    by (apply year_cpis_In; exists r; tauto).
  rewrite E in Hc. exact Hc.
Qed.

Lemma past_cpi_year_found (df : frame F) (y : Z) :
  In y (year_values df) ->
  past_cpi_year df y = Ok (mean (year_cpis df y)).
Proof.
  intros Hy. unfold past_cpi_year.
  rewrite (proj2 (year_member df y) Hy). reflexivity.
Qed.


End YearMean.

Lemma sum_year_cpis (df : frame Q) (y : Z) :
  sum (year_cpis df y) == cpi_sum_of_year df y.
Proof.
  unfold sum, year_cpis.
  induction df as [| r t IH]; simpl.
  - reflexivity.
  - destruct (year (Date r) =? y); simpl.
    + rewrite fold_left_Qplus.
      simpl in IH. rewrite IH.
      change (of_Z 0) with (inject_Z 0). ring.
    + exact IH.
Qed.

(** *** numpy's pairwise sum *)

Section PairwiseFuel.

Context {F : Type} `{Arith F}.

Lemma pairwise_sum_rec_S (fuel : nat) (a : list F) :
  pairwise_sum_rec (S fuel) a
  = if (List.length a <? 8)%nat then fold_left add a (of_Z 0)
    else if (List.length a <=? 128)%nat then block_sum a
    else add (pairwise_sum_rec fuel
                (firstn (List.length a / 2 - (List.length a / 2) mod 8) a))
             (pairwise_sum_rec fuel
                (skipn (List.length a / 2 - (List.length a / 2) mod 8) a)).
Proof. reflexivity. Qed.

Lemma pairwise_sum_rec_short (fuel : nat) (a : list F) :
  (List.length a <= 128)%nat ->
  pairwise_sum_rec fuel a
  = if (List.length a <? 8)%nat then fold_left add a (of_Z 0)
    else block_sum a.
Proof.
  intros Hn. destruct fuel; simpl.
  - destruct (List.length a <? 8)%nat; [reflexivity |].
    destruct (List.length a <=? 128)%nat; reflexivity.
  - destruct (List.length a <? 8)%nat; [reflexivity |].
    apply Nat.leb_le in Hn. rewrite Hn. reflexivity.
Qed.

(** The fuel given by [pairwise_sum] is enough: any larger amount gives the
    same sum, so the recursion never stops for lack of it. *)
Lemma pairwise_sum_fuel (fuel fuel' : nat) (a : list F) :
  (List.length a <= fuel)%nat -> (List.length a <= fuel')%nat ->
  pairwise_sum_rec fuel a = pairwise_sum_rec fuel' a.
Proof.
  revert fuel' a.
  induction fuel as [| f IH]; intros g a Hf Hg.
  - rewrite !pairwise_sum_rec_short by lia. reflexivity.
  - destruct g as [| g'].
    + rewrite !pairwise_sum_rec_short by lia. reflexivity.
    + rewrite !pairwise_sum_rec_S.
      destruct (List.length a <? 8)%nat; [reflexivity |].
      destruct (List.length a <=? 128)%nat eqn:E; [reflexivity |].
      apply Nat.leb_gt in E.
      set (n2 := (List.length a / 2 - (List.length a / 2) mod 8)%nat).
      assert (Hn2 : (1 <= n2 /\ n2 < List.length a)%nat).
      { unfold n2.
        pose proof (Nat.div_mod_eq (List.length a) 2) as Hd.
        pose proof (Nat.mod_upper_bound (List.length a) 2) as Hm2.
        pose proof (Nat.mod_upper_bound (List.length a / 2) 8) as Hm8.
        lia. }
      assert (H1 : (List.length (firstn n2 a) < List.length a)%nat)
        by (rewrite length_firstn; lia).
      assert (H2 : (List.length (skipn n2 a) < List.length a)%nat)
        by (rewrite length_skipn; lia).
      rewrite (IH g' (firstn n2 a)) by lia.
      rewrite (IH g' (skipn n2 a)) by lia.
      reflexivity.
Qed.

End PairwiseFuel.

Lemma Qsum_cons (x : Q) (xs : list Q) :
  fold_left Qplus (x :: xs) 0%Q == x + fold_left Qplus xs 0%Q.
Proof. simpl. rewrite fold_left_Qplus. ring. Qed.

Lemma Qsum_app (xs ys : list Q) :
  fold_left Qplus (xs ++ ys) 0%Q
  == fold_left Qplus xs 0%Q + fold_left Qplus ys 0%Q.
Proof. rewrite fold_left_app. apply fold_left_Qplus. Qed.

Lemma Qsum_split (k : nat) (a : list Q) :
  fold_left Qplus (firstn k a) 0%Q + fold_left Qplus (skipn k a) 0%Q
  == fold_left Qplus a 0%Q.
Proof. rewrite <- Qsum_app, firstn_skipn. reflexivity. Qed.

Lemma zip_add_Q (r block : list Q) :
  (List.length block <= List.length r)%nat ->
  List.length (zip_add r block) = List.length r
  /\ fold_left Qplus (zip_add r block) 0%Q
     == fold_left Qplus r 0%Q + fold_left Qplus block 0%Q.
Proof.
  revert block. induction r as [| x r' IH]; intros block Hlen.
  - destruct block; [| simpl in Hlen; lia].
    simpl. split; [reflexivity | ring].
  - destruct block as [| y block'].
    + simpl. split; [reflexivity | ring].
    + simpl in Hlen.
      destruct (IH block') as [Hl Hs]; [lia |].
      cbn [zip_add]. split; [simpl; congruence |].
      change (add x y) with (x + y)%Q.
      rewrite !Qsum_cons, Hs. ring.
Qed.

Lemma add_blocks_Q (blocks : nat) (r a : list Q) :
  List.length r = 8%nat ->
  List.length (fst (add_blocks blocks r a)) = 8%nat
  /\ fold_left Qplus (fst (add_blocks blocks r a)) 0%Q
     + fold_left Qplus (snd (add_blocks blocks r a)) 0%Q
     == fold_left Qplus r 0%Q + fold_left Qplus a 0%Q.
Proof.
  revert r a. induction blocks as [| b IH]; intros r a Hr.
  - simpl. split; [exact Hr | reflexivity].
  - cbn [add_blocks].
    destruct (zip_add_Q r (firstn 8 a)) as [Hl Hs].
    { rewrite length_firstn. lia. }
    destruct (IH (zip_add r (firstn 8 a)) (skipn 8 a)) as [Hl' Hs'];
      [congruence |].
    split; [exact Hl' |].
    rewrite Hs', Hs, <- (Qsum_split 8 a). ring.
Qed.

Lemma combine8_Q (r : list Q) : combine8 r == fold_left Qplus r 0%Q.
Proof.
  destruct r as [| r0 [| r1 [| r2 [| r3 [| r4 [| r5 [| r6
                [| r7 [| r8 t]]]]]]]]]; try reflexivity.
  unfold combine8. simpl. ring.
Qed.

Lemma block_sum_Q (a : list Q) :
  (8 <= List.length a)%nat -> block_sum a == fold_left Qplus a 0%Q.
Proof.
  intros Hn. unfold block_sum.
  destruct (add_blocks_Q (List.length a / 8 - 1) (firstn 8 a) (skipn 8 a))
    as [Hl Hs].
  { rewrite length_firstn. lia. }
  destruct (add_blocks (List.length a / 8 - 1) (firstn 8 a) (skipn 8 a))
    as [r rest].
  cbn [fst snd] in Hl, Hs.
  change (fold_left add rest (combine8 r))
    with (fold_left Qplus rest (combine8 r)).
  rewrite fold_left_Qplus, combine8_Q, Hs.
  apply Qsum_split.
Qed.

Lemma pairwise_sum_rec_Q (fuel : nat) (a : list Q) :
  pairwise_sum_rec fuel a == fold_left Qplus a 0%Q.
Proof.
  revert a. induction fuel as [| f IH]; intros a.
  - simpl.
    destruct (List.length a <? 8)%nat eqn:E8; [reflexivity |].
    apply Nat.ltb_ge in E8.
    destruct (List.length a <=? 128)%nat; apply block_sum_Q; exact E8.
  - rewrite pairwise_sum_rec_S.
    destruct (List.length a <? 8)%nat eqn:E8; [reflexivity |].
    apply Nat.ltb_ge in E8.
    destruct (List.length a <=? 128)%nat; [apply block_sum_Q; exact E8 |].
    change (add ?u ?v) with (u + v)%Q.
    rewrite !IH. apply Qsum_split.
Qed.

Lemma fill_missing_Q (xs : list Q) : fill_missing xs = xs.
Proof.
  unfold fill_missing. induction xs as [| x t IH]; [reflexivity |].
  cbn [map]. rewrite IH. reflexivity.
Qed.

Lemma count_present_Q (xs : list Q) : count_present xs = List.length xs.
Proof.
  unfold count_present. induction xs as [| x t IH]; [reflexivity |].
  cbn [filter]. change (negb (isnan x)) with true.
  cbn [List.length]. rewrite IH. reflexivity.
Qed.

(** In exact arithmetic pandas' mean is the arithmetic mean. *)
Lemma mean_Q (xs : list Q) : mean xs == arithmetic_mean xs.
Proof.
  unfold mean, arithmetic_mean, ndarray_sum, pairwise_sum, sum.
  rewrite fill_missing_Q, count_present_Q.
  change (div ?u ?v) with (u / v)%Q.
  change (add ?u ?v) with (u + v)%Q.
  rewrite pairwise_sum_rec_Q.
  change (fold_left add xs (of_Z 0)) with (fold_left Qplus xs 0%Q).
  change (of_Z 0) with 0%Q.
  rewrite Qplus_0_l. reflexivity.
Qed.

Lemma mean_year_cpis (df : frame Q) (y : Z) :
  mean (year_cpis df y) == spec_average_for_year df y.
Proof.
  rewrite mean_Q. unfold arithmetic_mean, spec_average_for_year.
  change (div ?u ?v) with (u / v)%Q.
  rewrite year_cpis_length, sum_year_cpis. reflexivity.
Qed.

Section MeanOfPresent.

Context {F : Type} `{Arith F}.



Lemma count_present_le (xs : list F) :
  (count_present xs <= List.length xs)%nat.
Proof. unfold count_present. apply filter_length_le. Qed.


End MeanOfPresent.




(** ** The year selected for comparison *)

Lemma default_selectbox_returns_an_option (options : list Z) (i : nat)
      (cy : option Z) :
  default_selectbox options i = Ok cy ->
  (exists y, cy = Some y /\ In y options) \/ (cy = None /\ options = []).
Proof.
  unfold default_selectbox.
  destruct options as [| o t].
  - intros Hcy. injection Hcy as <-. right. split; reflexivity.
  - destruct (nth_error (o :: t) i) as [y |] eqn:E; intros Hcy.
    + injection Hcy as <-. left. exists y. split; [reflexivity |].
      apply nth_error_In with (n := i). exact E.
    + discriminate.
Defined.

Lemma single_year_frame_run
      (F : Type) (A : Arith F) (w : widgets F) (df : frame F) :
  df <> [] -> years df = [now_year w - 10] ->
  selectbox w [] 0%nat = Ok None ->
  exists latest past,
    app w df
    = if button w then Err NameError
      else Ok (mkpage (percent_change latest past) None
                      (Some YearNotFound) None).
Proof.
  intros Hne Hy Hsel.
  destruct (iloc_last_nonempty df Hne) as [r E].
  pose proof (latest_cpi_last df r E) as El.
  assert (Hp : exists past, past_cpi df (ten_years_ago df) = Ok past).
  { unfold past_cpi.
    destruct (closest_past df (ten_years_ago df)) as [| c0 ct] eqn:Ec.
    - destruct df as [| r0 rest]; [contradiction |].
      exists (CPI r0). reflexivity.
    - apply iloc_last_nonempty. discriminate. }
  destruct Hp as [past Hp].
  exists (CPI r), past.
  unfold app, year_options. rewrite El, Hp, Hy. simpl.
  rewrite Z.eqb_refl. simpl. rewrite Hsel. simpl.
  destruct (button w); reflexivity.
Qed.

(** C10, as the code has it.  Every year offered for comparison is a
    calendar year of the frame, so for it the membership test of line 83
    succeeds and the mean is taken over at least one observation.  A select
    box returns one of the years offered, or None when none is offered; so
    in a run that completes the unavailable-year message is shown only when
    no year is offered, and never when some year is.  That case occurs: on
    a non-empty frame whose only calendar year is the one ten years before
    the current year, nothing is offered, the select box returns None, the
    year is reported as unavailable, and pressing the button stops the run
    at the unbound [past_cpi_year]. *)
Theorem offered_years_are_available
        (F : Type) (A : Arith F) (df : frame F) :
  (forall y, In y (year_options df) ->
             (exists r, In r df /\ year (Date r) = y)
             /\ existsb (fun v => v =? y) (year_values df) = true
             /\ year_cpis df y <> []
             /\ past_cpi_year df y = Ok (mean (year_cpis df y)))
  /\ (forall w : widgets F,
         selectbox_returns_an_option w ->
         (forall i cy,
             selectbox w (year_options df) i = Ok cy ->
             (exists y, cy = Some y /\ In y (year_options df)
                        /\ lookup_year df cy = Ok (mean (year_cpis df y)))
             \/ (cy = None /\ year_options df = []
                 /\ lookup_year df cy = Err YearNotFound))
         /\ (forall pg, app w df = Ok pg ->
                        (message pg = None
                         /\ exists y, comparison_year pg = Some y
                                      /\ In y (year_options df))
                        \/ (message pg = Some YearNotFound
                            /\ comparison_year pg = None
                            /\ year_options df = []
                            /\ button w = false))
         /\ (year_options df <> [] ->
             forall pg, app w df = Ok pg -> message pg = None))
  /\ (forall w : widgets F,
         df <> [] -> years df = [now_year w - 10] ->
         selectbox w [] 0%nat = Ok None ->
         year_options df = []
         /\ (button w = false ->
             exists pg, app w df = Ok pg
                        /\ comparison_year pg = None
                        /\ message pg = Some YearNotFound
                        /\ predicted pg = None)
         /\ (button w = true -> app w df = Err NameError)).
Proof.
  assert (Hopt : forall y, In y (year_options df) ->
                   past_cpi_year df y = Ok (mean (year_cpis df y))).
  { intros y Hy. apply past_cpi_year_found, year_options_incl. exact Hy. }
  assert (Hsel : forall (w : widgets F) i cy,
             selectbox_returns_an_option w ->
             selectbox w (year_options df) i = Ok cy ->
             (exists y, cy = Some y /\ In y (year_options df)
                        /\ lookup_year df cy = Ok (mean (year_cpis df y)))
             \/ (cy = None /\ year_options df = []
                 /\ lookup_year df cy = Err YearNotFound)).
  { intros w i cy Hw Es.
    destruct (Hw _ _ _ Es) as [(y & -> & Hy) | [-> Hnone]].
    - left. exists y. split; [reflexivity |]. split; [exact Hy |].
      simpl. apply Hopt. exact Hy.
    - right. repeat split. exact Hnone. }
  assert (Hrun : forall (w : widgets F) pg,
             selectbox_returns_an_option w -> app w df = Ok pg ->
             (message pg = None
              /\ exists y, comparison_year pg = Some y
                           /\ In y (year_options df))
             \/ (message pg = Some YearNotFound
                 /\ comparison_year pg = None
                 /\ year_options df = []
                 /\ button w = false)).
  { intros w pg Hw. unfold app.
    destruct (latest_cpi df) as [latest | e1]; simpl; [| discriminate].
    destruct (past_cpi df (ten_years_ago df)) as [past | e2]; simpl;
      [| discriminate].
    destruct (index (now_year w - 10) (years df)) as [i | e3]; simpl;
      [| discriminate].
    destruct (selectbox w (year_options df) i) as [cy | e4] eqn:Es;
      simpl; [| discriminate].
    destruct (Hsel w i cy Hw Es)
      as [(y & -> & Hy & ->) | (-> & Hnone & ->)].
    - unfold predict.
      destruct (button w);
        [destruct (isfinite (total_today (category_inputs w))) |];
        simpl; intros Hpg; try discriminate Hpg;
        injection Hpg as <-; simpl;
        left; (split; [reflexivity | exists y; tauto]).
    - destruct (button w); [discriminate |].
      intros Hpg. injection Hpg as <-. simpl.
      right. repeat split. exact Hnone. }
  split; [| split].
  - intros y Hy.
    pose proof (year_options_incl df y Hy) as Hin.
    split; [apply year_values_In; exact Hin |].
    split; [apply year_member; exact Hin |].
    split; [apply year_cpis_nonempty; exact Hin |].
    apply Hopt. exact Hy.
  - intros w Hw.
    split; [intros i cy; apply Hsel; exact Hw |].
    split; [intros pg; apply Hrun; exact Hw |].
    intros Hsome pg Hpg.
    destruct (Hrun w pg Hw Hpg) as [[Hm _] | (_ & _ & Hnone & _)];
      [exact Hm | contradiction].
  - intros w Hne Hy Hnone.
    destruct (single_year_frame_run F A w df Hne Hy Hnone)
      as (latest & past & Happ).
    split; [unfold year_options; rewrite Hy; reflexivity |].
    split.
    + intros Hb. rewrite Hb in Happ.
      eexists. split; [exact Happ |]. repeat split.
    + intros Hb. rewrite Hb in Happ. exact Happ.
Qed.

Lemma offered_years_are_available_witness :
  ((exists r, In r (two_points Q) /\ year (Date r) = 2015)
   /\ existsb (fun v => v =? 2015) (year_values (two_points Q)) = true
   /\ year_cpis (two_points Q) 2015 <> []
   /\ past_cpi_year (two_points Q) 2015
      = Ok (mean (year_cpis (two_points Q) 2015)))
  /\ (forall pg,
         app (mkwidgets 2034 default_selectbox
                        (same_amounts (10000 # 1)) true)
             (two_points Q) = Ok pg ->
         message pg = None)
  /\ year_options (one_year Q) = []
  /\ (exists pg,
         app (mkwidgets 2025 default_selectbox
                        (same_amounts (10000 # 1)) false)
             (one_year Q) = Ok pg
         /\ comparison_year pg = None
         /\ message pg = Some YearNotFound
         /\ predicted pg = None)
  /\ app (mkwidgets 2025 default_selectbox
                    (same_amounts (10000 # 1)) true)
         (one_year Q) = Err NameError.
Proof.
  assert (Hne : one_year Q <> []) by discriminate.
  split; [| split; [| split; [| split]]].
  - apply (proj1 (offered_years_are_available Q Q_arith (two_points Q))).
    left. reflexivity.
  - apply (proj1 (proj2 (offered_years_are_available Q Q_arith
                           (two_points Q)))
                 (mkwidgets 2034 default_selectbox
                            (same_amounts (10000 # 1)) true)).
    + intros options i cy. apply default_selectbox_returns_an_option.
    + discriminate.
  - reflexivity.
  - destruct (proj2 (proj2 (offered_years_are_available Q Q_arith
                              (one_year Q)))
                    (mkwidgets 2025 default_selectbox
                               (same_amounts (10000 # 1)) false)
                    Hne eq_refl eq_refl) as (_ & Hshown & _).
    apply Hshown. reflexivity.
  - destruct (proj2 (proj2 (offered_years_are_available Q Q_arith
                              (one_year Q)))
                    (mkwidgets 2025 default_selectbox
                               (same_amounts (10000 # 1)) true)
                    Hne eq_refl eq_refl) as (_ & _ & Hstop).
    apply Hstop. reflexivity.
Defined.

(** C10, as stated, fails: the frame (2015-03, 90), (2015-09, 110) is not
    empty and has the single year 2015.  In 2025 nothing is offered, the
    select box returns None, the year is reported as unavailable, and with
    the button pressed the run stops at the unbound [past_cpi_year]. *)
Lemma unavailable_year_branch_is_reached :
  one_year b64 <> []
  /\ years (one_year b64) = [2015]
  /\ year_options (one_year b64) = []
  /\ default_selectbox (year_options (one_year b64)) 0 = Ok None
  /\ lookup_year (one_year b64) None = Err YearNotFound
  /\ (exists pg,
         app (mkwidgets 2025 default_selectbox
                        (same_amounts (of_Z 10000 : b64)) false)
             (one_year b64) = Ok pg
         /\ message pg = Some YearNotFound
         /\ predicted pg = None)
  /\ app (mkwidgets 2025 default_selectbox
                    (same_amounts (of_Z 10000 : b64)) true)
         (one_year b64) = Err NameError.
Proof.
  split; [discriminate |].
  split; [reflexivity |].
  split; [reflexivity |].
  split; [reflexivity |].
  split; [reflexivity |].
  split; [| vm_compute; reflexivity].
  eexists. split; [vm_compute; reflexivity |].
  split; reflexivity.
Qed.

(** ** The value conversion *)

Lemma div_by_zero_b64 (x : b64) (s : bool) :
  is_inf_or_nan (SFdiv prec emax x (S754_zero s)) = true.
Proof. destruct x; reflexivity. Qed.

Lemma sum_cons_Q (x : Q) (xs : list Q) : sum (x :: xs) == x + sum xs.
Proof.
  unfold sum. simpl. change (inject_Z 0) with 0%Q.
  rewrite fold_left_Qplus. ring.
Qed.

Lemma total_today_cons_Q (kv : string * Q) (t : list (string * Q)) :
  total_today (kv :: t) == snd kv + total_today t.
Proof. unfold total_today. simpl map. apply sum_cons_Q. Qed.

(** C1.  The total of line 123 and the per-category value of line 147 are
    both [amount * cpi_to / cpi_from], with the latest CPI as [cpi_from] and
    the CPI of the comparison year as [cpi_to]; the button block shows these
    for the total and for every entry.  In exact arithmetic, for a positive
    [cpi_from], this is the number whose product with [cpi_from] is
    [amount * cpi_to].  Converting 60000 from 400 to 100 gives 15000. *)
Theorem convert_formula :
  (forall (F : Type) (A : Arith F) (amount cpi_from cpi_to : F),
      total_past amount cpi_to cpi_from = spec_convert amount cpi_from cpi_to
      /\ old_value amount cpi_to cpi_from
         = spec_convert amount cpi_from cpi_to)
  /\ (forall (F : Type) (A : Arith F) (inputs : list (string * F))
             (cpi_from cpi_to : F),
         isfinite (total_today inputs) = true ->
         predict inputs cpi_to cpi_from
         = Ok (mkprediction
                 (total_today inputs)
                 (spec_convert (total_today inputs) cpi_from cpi_to)
                 (map (fun kv =>
                         (fst kv, spec_convert (snd kv) cpi_from cpi_to))
                      inputs)))
  /\ (forall amount cpi_from cpi_to : Q,
         (0 < cpi_from)%Q ->
         total_past amount cpi_to cpi_from == amount * cpi_to / cpi_from
         /\ total_past amount cpi_to cpi_from * cpi_from
            == amount * cpi_to)
  /\ total_past (of_Z 60000 : b64) (of_Z 100) (of_Z 400) = of_Z 15000
  /\ old_value (of_Z 60000 : b64) (of_Z 100) (of_Z 400) = of_Z 15000
  /\ total_past (60000 # 1) (100 # 1) (400 # 1) == 15000 # 1.
Proof.
  split; [| split; [| split; [| split; [| split]]]].
  - intros F A amount cpi_from cpi_to. split; reflexivity.
  - intros F A inputs cpi_from cpi_to Hfin.
    unfold predict. rewrite Hfin. reflexivity.
  - intros amount cpi_from cpi_to Hpos.
    split; [reflexivity |].
    unfold total_past. simpl. field.
    intros E. rewrite E in Hpos. discriminate.
  - vm_compute. reflexivity.
  - vm_compute. reflexivity.
  - reflexivity.
Qed.

Lemma convert_formula_witness :
  predict (same_amounts (of_Z 60000 : b64)) (of_Z 100) (of_Z 400)
  = Ok (mkprediction
          (total_today (same_amounts (of_Z 60000 : b64)))
          (spec_convert (total_today (same_amounts (of_Z 60000 : b64)))
                        (of_Z 400) (of_Z 100))
          (map (fun kv => (fst kv, spec_convert (snd kv) (of_Z 400)
                                                (of_Z 100)))
               (same_amounts (of_Z 60000 : b64))))
  /\ (total_past (60000 # 1) (100 # 1) (400 # 1)
      == (60000 # 1) * (100 # 1) / (400 # 1)
      /\ total_past (60000 # 1) (100 # 1) (400 # 1) * (400 # 1)
         == (60000 # 1) * (100 # 1)).
Proof.
  split.
  - apply (proj1 (proj2 convert_formula) b64 b64_arith
                 (same_amounts (of_Z 60000 : b64)) (of_Z 400) (of_Z 100)).
    vm_compute. reflexivity.
  - apply (proj1 (proj2 (proj2 convert_formula))
                 (60000 # 1) (400 # 1) (100 # 1)).
    reflexivity.
Defined.

(** C4, as the code has it.  Nothing guards the divisions: whatever the two
    CPI values, the button block shows a total and a breakdown for amounts
    of finite total.  In binary64 a latest CPI of zero makes the total and
    every per-category value an infinity or a NaN, and a past CPI of zero
    does the same to the headline change; a negative latest CPI gives, in
    exact arithmetic, the quotient itself. *)
Theorem conversion_has_no_zero_guard :
  (forall (F : Type) (A : Arith F) (inputs : list (string * F))
          (cpi_year latest : F),
      isfinite (total_today inputs) = true ->
      exists p, predict inputs cpi_year latest = Ok p
                /\ shown_total_past p
                   = total_past (total_today inputs) cpi_year latest)
  /\ (forall amount cpi_year latest : b64,
         is_zero latest = true ->
         is_inf_or_nan (total_past amount cpi_year latest) = true
         /\ is_inf_or_nan (old_value amount cpi_year latest) = true)
  /\ (forall value_new value_old : b64,
         is_zero value_old = true ->
         is_inf_or_nan (percent_change value_new value_old) = true)
  /\ (forall amount cpi_year latest : Q,
         (latest < 0)%Q ->
         total_past amount cpi_year latest * latest == amount * cpi_year).
Proof.
  split; [| split; [| split]].
  - intros F A inputs cpi_year latest Hfin.
    unfold predict. rewrite Hfin.
    eexists. split; reflexivity.
  - intros amount cpi_year latest Hz.
    destruct latest as [s | s | | s m e]; try discriminate.
    split; apply div_by_zero_b64.
  - intros value_new value_old Hz.
    destruct value_old as [s | s | | s m e]; try discriminate.
    unfold percent_change.
    destruct value_new as [s' | s' | | s' m' e'], s; try destruct s';
      reflexivity.
  - intros amount cpi_year latest Hneg.
    unfold total_past. simpl. field.
    intros E. rewrite E in Hneg. discriminate.
Qed.

Lemma conversion_has_no_zero_guard_witness :
  (exists p,
      predict (same_amounts (of_Z 60000 : b64)) (of_Z 100) (of_Z 0) = Ok p
      /\ shown_total_past p
         = total_past (total_today (same_amounts (of_Z 60000 : b64)))
                      (of_Z 100) (of_Z 0))
  /\ (is_inf_or_nan (total_past (of_Z 60000 : b64) (of_Z 100) (of_Z 0)) = true
   /\ is_inf_or_nan (old_value (of_Z 60000 : b64) (of_Z 100) (of_Z 0))
      = true)
  /\ is_inf_or_nan (percent_change (of_Z 400 : b64) (of_Z 0)) = true
  /\ total_past (60000 # 1) (100 # 1) (- 400 # 1) * (- 400 # 1)
     == (60000 # 1) * (100 # 1).
Proof.
  split; [| split; [| split]].
  - apply (proj1 conversion_has_no_zero_guard). vm_compute. reflexivity.
  - apply (proj1 (proj2 conversion_has_no_zero_guard)). reflexivity.
  - apply (proj1 (proj2 (proj2 conversion_has_no_zero_guard))). reflexivity.
  - apply (proj2 (proj2 (proj2 conversion_has_no_zero_guard))). reflexivity.
Defined.

(** C4, as the specification states it, fails: with a latest CPI of zero, or
    a negative one, the button block reports no division error but shows an
    infinity, or a negative amount; with a past CPI of zero the headline is
    an infinity. *)
Lemma zero_cpi_is_not_rejected :
  predict (same_amounts (of_Z 60000 : b64)) (of_Z 100) (of_Z 0)
  <> Err DivisionByZero
  /\ (exists p,
         predict (same_amounts (of_Z 60000 : b64)) (of_Z 100) (of_Z 0) = Ok p
         /\ shown_total_past p = S754_infinity false)
  /\ total_past (of_Z 60000 : b64) (of_Z 100) (of_Z 0) = S754_infinity false
  /\ total_past (of_Z 60000 : b64) (of_Z 100) (of_Z (-400)) = of_Z (-15000)
  /\ cpi_change zero_past = Ok (S754_infinity false).
Proof.
  split; [intros E; vm_compute in E; discriminate E |].
  split; [eexists; split; vm_compute; reflexivity |].
  split; [vm_compute; reflexivity |].
  split; vm_compute; reflexivity.
Qed.

(** ** Identity and totals of the conversion *)

Lemma sum_old_values_Q (inputs : list (string * Q)) (cpi_year latest : Q) :
  ~ latest == 0 ->
  sum (map snd (old_values inputs cpi_year latest))
  == total_today inputs * cpi_year / latest.
Proof.
  intros Hnz.
  induction inputs as [| kv t IH].
  - unfold total_today, sum. simpl. field. exact Hnz.
  - change (map snd (old_values (kv :: t) cpi_year latest))
      with (old_value (snd kv) cpi_year latest
            :: map snd (old_values t cpi_year latest)).
    rewrite sum_cons_Q, IH, total_today_cons_Q.
    unfold old_value. simpl. field. exact Hnz.
Qed.

(** C8, in exact arithmetic.  For every amount and every positive CPI value
    [c], converting with [c] on both sides gives the amount back, for the
    total as for a per-category value.  In binary64 this holds where the
    product and the quotient are exact, as for 60000 and 400. *)
Theorem convert_identity_exact :
  (forall amount c : Q,
      (0 < c)%Q ->
      total_past amount c c == amount /\ old_value amount c c == amount)
  /\ total_past (of_Z 60000 : b64) (of_Z 400) (of_Z 400) = of_Z 60000.
Proof.
  split.
  - intros amount c Hpos.
    assert (Hnz : ~ c == 0) by (intros E; rewrite E in Hpos; discriminate).
    unfold total_past, old_value. simpl.
    split; field; exact Hnz.
  - vm_compute. reflexivity.
Qed.

Lemma convert_identity_exact_witness :
  total_past (500 # 1) (11 # 10) (11 # 10) == 500 # 1
  /\ old_value (500 # 1) (11 # 10) (11 # 10) == 500 # 1.
Proof.
  apply (proj1 convert_identity_exact (500 # 1) (11 # 10)).
  reflexivity.
Defined.

(** C8, as stated for the code's floats, fails: 500.0 converted with the
    CPI value 1.1 on both sides is 499.99999999999994. *)
Lemma convert_identity_rounds_in_binary64 :
  total_past (of_Z 500 : b64) (dec 11 1) (dec 11 1)
  = S754_finite false 8796093022207999 (-44)
  /\ (of_Z 500 : b64) = S754_finite false 8796093022208000 (-44)
  /\ total_past (of_Z 500 : b64) (dec 11 1) (dec 11 1) <> of_Z 500
  /\ old_value (of_Z 500 : b64) (dec 11 1) (dec 11 1) <> of_Z 500.
Proof.
  split; [vm_compute; reflexivity |].
  split; [vm_compute; reflexivity |].
  split; intros E; vm_compute in E; discriminate E.
Qed.

(** C9, in exact arithmetic.  For every list of category amounts, every CPI
    of the comparison year and every non-zero latest CPI, the total shown
    equals the sum of the per-category values shown. *)
Theorem total_past_is_sum_of_old_values
        (inputs : list (string * Q)) (cpi_year latest : Q) :
  ~ latest == 0 ->
  total_past (total_today inputs) cpi_year latest
  == sum (map snd (old_values inputs cpi_year latest)).
Proof.
  intros Hnz. rewrite (sum_old_values_Q inputs cpi_year latest Hnz).
  reflexivity.
Qed.

Lemma total_past_is_sum_of_old_values_witness :
  total_past (total_today (same_amounts (10000 # 1))) (2 # 1) (15 # 1)
  == sum (map snd (old_values (same_amounts (10000 # 1)) (2 # 1) (15 # 1))).
Proof.
  apply (total_past_is_sum_of_old_values
           (same_amounts (10000 # 1)) (2 # 1) (15 # 1)).
  discriminate.
Defined.

(** C9, as stated for the code's floats, fails: with 10000.0 in each of the
    seven categories, a comparison-year CPI of 2.0 and a latest CPI of 15.0,
    the total shown is 9333.333333333334 and the per-category values, each
    1333.3333333333333, add up to 9333.333333333332. *)
Lemma total_past_differs_from_sum_in_binary64 :
  total_past (total_today (same_amounts (of_Z 10000 : b64)))
             (of_Z 2) (of_Z 15)
  = S754_finite false 5131054262954667 (-39)
  /\ sum (map snd (old_values (same_amounts (of_Z 10000 : b64))
                              (of_Z 2) (of_Z 15)))
     = S754_finite false 5131054262954666 (-39)
  /\ total_past (total_today (same_amounts (of_Z 10000 : b64)))
                (of_Z 2) (of_Z 15)
     <> sum (map snd (old_values (same_amounts (of_Z 10000 : b64))
                                 (of_Z 2) (of_Z 15))).
Proof.
  split; [vm_compute; reflexivity |].
  split; [vm_compute; reflexivity |].
  intros E. vm_compute in E. discriminate E.
Qed.

(** ** Beyond the claims: the loader *)

Lemma sorted_tail {F : Type} (a : row F) (t : frame F) :
  sorted_by_date (a :: t) -> sorted_by_date t.
Proof. intros Hs. apply StronglySorted_inv in Hs. tauto. Qed.

Lemma same_date_same_row {F : Type} (l : frame F) (a b : row F) :
  NoDup (map Date l) -> In a l -> In b l -> Date a = Date b -> a = b.
Proof.
  induction l as [| x t IH]; simpl; intros Hnd Ha Hb E.
  - contradiction.
  - inversion Hnd as [| ? ? Hx Hnd']; subst.
    destruct Ha as [-> | Ha], Hb as [-> | Hb].
    + reflexivity.
    + exfalso. apply Hx. rewrite E. apply in_map. exact Hb.
    + exfalso. apply Hx. rewrite <- E. apply in_map. exact Ha.
    + apply IH; assumption.
Qed.

Lemma sorted_perm_unique {F : Type} (l1 l2 : frame F) :
  NoDup (map Date l1) ->
  sorted_by_date l1 -> sorted_by_date l2 -> Permutation l1 l2 -> l1 = l2.
Proof.
  revert l2. induction l1 as [| a t1 IH]; intros l2 Hnd Hs1 Hs2 Hp.
  - apply Permutation_nil in Hp. congruence.
  - destruct l2 as [| b t2].
    + apply Permutation_sym, Permutation_nil in Hp. discriminate.
    + assert (Ha : In a (b :: t2))
        by (apply (Permutation_in _ Hp); left; reflexivity).
      assert (Hb : In b (a :: t1))
        by (apply (Permutation_in _ (Permutation_sym Hp)); left;
            reflexivity).
      assert (E : b = a).
      { apply (same_date_same_row (a :: t1)); try assumption.
        - left. reflexivity.
        - apply date_le_antisym.
          + apply (sorted_head_min b t2 Hs2). exact Ha.
          + apply (sorted_head_min a t1 Hs1). exact Hb. }
      subst b. f_equal.
      apply IH.
      * inversion Hnd. assumption.
      * apply sorted_tail with a. exact Hs1.
      * apply sorted_tail with a. exact Hs2.
      * apply Permutation_cons_inv with a. exact Hp.
Qed.

(** X1.  Sorting the table by date (line 11) rearranges its rows, dropping
    and adding none, into ascending order of date. *)
Theorem sort_values_sorted_permutation (F : Type) (rows : frame F) :
  sorted_by_date (sort_values rows)
  /\ Permutation rows (sort_values rows)
  /\ List.length (sort_values rows) = List.length rows
  /\ (forall r, In r (sort_values rows) <-> In r rows).
Proof.
  split; [apply sort_values_sorted |].
  split; [apply sort_values_perm |].
  split.
  - symmetry. apply Permutation_length, sort_values_perm.
  - intros r. apply sort_values_In.
Qed.

(** X2.  When no two rows of the table share a date, the sorted frame is the
    only arrangement of the rows in ascending order of date: whatever way
    the rows are sorted, the script works on the same frame. *)
Theorem sort_values_unique_for_distinct_dates
        (F : Type) (rows df : frame F) :
  NoDup (map Date rows) ->
  Permutation rows df -> sorted_by_date df ->
  df = sort_values rows.
Proof.
  intros Hnd Hp Hs.
  apply sorted_perm_unique.
  - apply (Permutation_NoDup (l := map Date rows)); [| exact Hnd].
    apply Permutation_map. exact Hp.
  - exact Hs.
  - apply sort_values_sorted.
  - apply perm_trans with rows.
    + apply Permutation_sym. exact Hp.
    + apply sort_values_perm.
Qed.

Lemma sort_values_unique_for_distinct_dates_witness :
  two_points Q = sort_values (rev (two_points Q)).
Proof.
  apply (sort_values_unique_for_distinct_dates Q (rev (two_points Q))
           (two_points Q)).
  - constructor; [simpl; intros [E | []]; discriminate E |].
    constructor; [simpl; intros [] |].
    constructor.
  - apply perm_swap.
  - repeat constructor.
Defined.

(** X21.  When no two rows of the table share a date, the order of the rows
    in the table does not matter: two tables with the same rows give the
    same sorted frame, and so the same run for the same widgets. *)
Theorem run_does_not_depend_on_table_order
        (F : Type) (A : Arith F) (w : widgets F) (rows rows' : frame F) :
  NoDup (map Date rows) -> Permutation rows rows' ->
  sort_values rows = sort_values rows'
  /\ cpi_change (sort_values rows) = cpi_change (sort_values rows')
  /\ app w (sort_values rows) = app w (sort_values rows').
Proof.
  intros Hnd Hp.
  assert (E : sort_values rows = sort_values rows').
  { apply sorted_perm_unique.
    - apply (Permutation_NoDup (l := map Date rows)); [| exact Hnd].
      apply Permutation_map, sort_values_perm.
    - apply sort_values_sorted.
    - apply sort_values_sorted.
    - apply perm_trans with rows.
      + apply Permutation_sym, sort_values_perm.
      + apply perm_trans with rows'; [exact Hp | apply sort_values_perm]. }
  rewrite E. repeat split.
Qed.

Lemma run_does_not_depend_on_table_order_witness :
  sort_values (two_points Q) = sort_values (rev (two_points Q))
  /\ cpi_change (sort_values (two_points Q))
     = cpi_change (sort_values (rev (two_points Q)))
  /\ app (mkwidgets 2034 default_selectbox (same_amounts (10000 # 1)) true)
         (sort_values (two_points Q))
     = app (mkwidgets 2034 default_selectbox (same_amounts (10000 # 1))
                      true)
           (sort_values (rev (two_points Q))).
Proof.
  apply (run_does_not_depend_on_table_order Q Q_arith
           (mkwidgets 2034 default_selectbox (same_amounts (10000 # 1))
                      true)
           (two_points Q) (rev (two_points Q))).
  - constructor; [simpl; intros [E | []]; discriminate E |].
    constructor; [simpl; intros [] |].
    constructor.
  - apply perm_swap.
Defined.

(** ** Beyond the claims: ten years before *)

Lemma days_in_month_bounds (y m : Z) :
  28 <= days_in_month y m <= 31.
Proof.
  unfold days_in_month.
  destruct (m =? 2); [destruct (is_leap y); lia |].
  destruct ((m =? 4) || (m =? 6) || (m =? 9) || (m =? 11)); lia.
Qed.

Lemma days_in_month_other_year (y y' m : Z) :
  m <> 2 -> days_in_month y m = days_in_month y' m.
Proof.
  intros Hm. unfold days_in_month.
  destruct (m =? 2) eqn:E; [apply Z.eqb_eq in E; contradiction |].
  reflexivity.
Qed.

(** X3.  The date [n] years before a date (line 52, with [n] = 10) lies
    strictly before it, in the same month of the year [n] earlier.  For a
    date that exists, the result exists too and keeps the day of the month,
    except that 29 February becomes 28 February. *)
Theorem sub_years_earlier_and_valid (d : date) (n : Z) :
  0 < n ->
  date_lt (sub_years d n) d
  /\ year (sub_years d n) = year d - n
  /\ month (sub_years d n) = month d
  /\ (valid_date d = true ->
      valid_date (sub_years d n) = true
      /\ (day (sub_years d n) = day d
          \/ (month d = 2 /\ day d = 29 /\ day (sub_years d n) = 28))).
Proof.
  intros Hn.
  split; [| split; [reflexivity | split; [reflexivity |]]].
  - apply date_lt_iff. rewrite date_le_iff. simpl. lia.
  - intros Hv. unfold valid_date in Hv.
    rewrite !andb_true_iff, !Z.leb_le in Hv.
    destruct Hv as [[[Hm1 Hm2] Hd1] Hd2].
    pose proof (days_in_month_bounds (year d - n) (month d)) as Hb.
    unfold valid_date. simpl. rewrite !andb_true_iff, !Z.leb_le.
    split; [repeat split; lia |].
    destruct (Z.eq_dec (month d) 2) as [E2 | N2].
    + pose proof (days_in_month_bounds (year d) (month d)) as Hb'.
      unfold days_in_month in *. rewrite E2 in *. simpl in *.
      destruct (is_leap (year d)), (is_leap (year d - n)); lia.
    + rewrite (days_in_month_other_year (year d - n) (year d) _ N2).
      lia.
Qed.

Lemma sub_years_earlier_and_valid_witness :
  date_lt (sub_years (mkdate 2024 2 29) 10) (mkdate 2024 2 29)
  /\ year (sub_years (mkdate 2024 2 29) 10) = 2024 - 10
  /\ month (sub_years (mkdate 2024 2 29) 10) = 2
  /\ valid_date (sub_years (mkdate 2024 2 29) 10) = true
  /\ (day (sub_years (mkdate 2024 2 29) 10) = 29
      \/ (2 = 2 /\ 29 = 29
          /\ day (sub_years (mkdate 2024 2 29) 10) = 28)).
Proof.
  destruct (sub_years_earlier_and_valid (mkdate 2024 2 29) 10 eq_refl)
    as (H1 & H2 & H3 & H4).
  destruct (H4 eq_refl) as [H5 H6].
  exact (conj H1 (conj H2 (conj H3 (conj H5 H6)))).
Defined.

(** ** Beyond the claims: the headline *)

Lemma date_lt_le_trans (a b c : date) :
  date_lt a b -> date_le b c -> date_lt a c.
Proof. rewrite !date_lt_iff, !date_le_iff. lia. Qed.

Lemma no_row_kept {F : Type} (l : frame F) (t : date) :
  (forall r, In r l -> date_lt t (Date r)) ->
  filter (fun r => on_or_before (Some t) (Date r)) l = [].
Proof.
  induction l as [| a l' IH]; intros Hlater.
  - reflexivity.
  - cbn [filter].
    change (on_or_before (Some t) (Date a)) with (date_leb (Date a) t).
    rewrite (Hlater a (or_introl eq_refl)).
    apply IH. intros r Hr. apply Hlater. right. exact Hr.
Qed.

Lemma kept_rows_prefix {F : Type} (df : frame F) (t : date) :
  sorted_by_date df ->
  exists k,
    filter (fun r => on_or_before (Some t) (Date r)) df = firstn k df
    /\ (forall r, In r (firstn k df) -> date_le (Date r) t)
    /\ (forall r, In r (skipn k df) -> date_lt t (Date r)).
Proof.
  induction 1 as [| a l Hs IH Hall].
  - exists 0%nat. simpl. repeat split; intros r [].
  - destruct (date_leb (Date a) t) eqn:Ea.
    + destruct IH as (k & Ek & Hkept & Hlater).
      exists (S k). cbn [filter firstn skipn].
      change (on_or_before (Some t) (Date a)) with (date_leb (Date a) t).
      rewrite Ea, Ek.
      split; [reflexivity |]. split; [| exact Hlater].
      intros r [<- | Hr]; [exact Ea | apply Hkept; exact Hr].
    + exists 0%nat.
      assert (Hlater : forall r, In r (a :: l) -> date_lt t (Date r)).
      { intros r [<- | Hr]; [exact Ea |].
        apply date_lt_le_trans with (Date a); [exact Ea |].
        rewrite Forall_forall in Hall. apply Hall. exact Hr. }
      split; [apply no_row_kept; exact Hlater |].
      split; [intros r [] | exact Hlater].
Qed.

(** X4.  On a frame sorted by date, the observations dated on or before a
    target (line 53) are an initial run of the frame: every row kept comes
    before every row left out, so the last kept row is the one just before
    the first row after the target. *)
Theorem closest_past_is_prefix
        (F : Type) (A : Arith F) (df : frame F) (t : date) :
  sorted_by_date df ->
  exists k,
    closest_past df (Some t) = firstn k (map CPI df)
    /\ (forall r, In r (firstn k df) -> date_le (Date r) t)
    /\ (forall r, In r (skipn k df) -> date_lt t (Date r)).
Proof.
  intros Hs.
  destruct (kept_rows_prefix df t Hs) as (k & Ek & Hkept & Hlater).
  exists k. split; [| split; assumption].
  unfold closest_past. rewrite Ek. symmetry. apply firstn_map.
Qed.

Lemma closest_past_is_prefix_witness :
  exists k,
    closest_past (two_points Q) (Some (mkdate 2020 6 15))
    = firstn k (map CPI (two_points Q))
    /\ (forall r, In r (firstn k (two_points Q)) ->
                  date_le (Date r) (mkdate 2020 6 15))
    /\ (forall r, In r (skipn k (two_points Q)) ->
                  date_lt (mkdate 2020 6 15) (Date r)).
Proof.
  apply (closest_past_is_prefix Q Q_arith (two_points Q)
           (mkdate 2020 6 15)).
  repeat constructor.
Defined.

Lemma sub_years_before (d : date) : date_lt (sub_years d 10) d.
Proof. apply date_lt_iff. rewrite date_le_iff. simpl. lia. Qed.

(** X5.  When the sorted frame spans less than ten years, that is when its
    first observation is dated after the day ten years before its last one,
    the headline compares the last observation with the first one. *)
Theorem headline_of_short_series
        (F : Type) (A : Arith F) (r0 r : row F) (rest : frame F) :
  sorted_by_date (r0 :: rest) ->
  iloc_last (r0 :: rest) = Ok r ->
  date_lt (sub_years (Date r) 10) (Date r0) ->
  past_cpi (r0 :: rest) (ten_years_ago (r0 :: rest)) = Ok (CPI r0)
  /\ cpi_change (r0 :: rest) = Ok (percent_change (CPI r) (CPI r0)).
Proof.
  intros Hs E Hshort.
  assert (Ht : ten_years_ago (r0 :: rest) = Some (sub_years (Date r) 10)).
  { unfold ten_years_ago. rewrite (date_max_sorted _ r Hs E). reflexivity. }
  assert (Hp : past_cpi (r0 :: rest) (ten_years_ago (r0 :: rest))
               = Ok (CPI r0)).
  { rewrite Ht. rewrite past_cpi_fallback; [reflexivity |].
    intros r' Hr'. apply date_lt_le_trans with (Date r0); [exact Hshort |].
    apply (sorted_head_min r0 rest Hs). exact Hr'. }
  split; [exact Hp |].
  unfold cpi_change. rewrite (latest_cpi_last _ r E). simpl.
  rewrite Hp. reflexivity.
Qed.

Lemma headline_of_short_series_witness :
  past_cpi (two_points b64) (ten_years_ago (two_points b64))
  = Ok (of_Z 100)
  /\ cpi_change (two_points b64)
     = Ok (percent_change (of_Z 400) (of_Z 100)).
Proof.
  apply (headline_of_short_series b64 b64_arith
           (mkrow (mkdate 2015 1 1) (of_Z 100))
           (mkrow (mkdate 2024 1 1) (of_Z 400))
           [mkrow (mkdate 2024 1 1) (of_Z 400)]).
  - repeat constructor.
  - reflexivity.
  - reflexivity.
Defined.

Lemma sub_same_b64 (s : bool) (m : positive) (e : Z) :
  SFsub prec emax (S754_finite s m e) (S754_finite s m e)
  = S754_zero false.
Proof.
  unfold SFsub. rewrite Z.sub_diag. reflexivity.
Qed.

(** X6.  With a single observation the headline compares that observation
    with itself.  It is then zero, in exact arithmetic for a non-zero CPI
    and in binary64 for a finite non-zero CPI; for a CPI of zero the
    binary64 result is NaN. *)
Theorem headline_of_single_observation :
  (forall (F : Type) (A : Arith F) (r : row F),
      cpi_change [r] = Ok (percent_change (CPI r) (CPI r)))
  /\ (forall x : Q, ~ x == 0 -> percent_change x x == 0)
  /\ (forall x : b64,
         is_finite_nonzero x = true ->
         is_zero (percent_change x x) = true)
  /\ (forall x : b64,
         is_zero x = true -> percent_change x x = S754_nan).
Proof.
  split; [| split; [| split]].
  - intros F A r. unfold cpi_change, latest_cpi. simpl.
    unfold ten_years_ago. simpl.
    rewrite past_cpi_fallback; [reflexivity |].
    intros r' [<- | []]. apply sub_years_before.
  - intros x Hx. unfold percent_change. simpl. field. exact Hx.
  - intros x Hx. destruct x as [s | s | | s m e]; try discriminate.
    unfold percent_change.
    change (sub (S754_finite s m e) (S754_finite s m e))
      with (SFsub prec emax (S754_finite s m e) (S754_finite s m e)).
    rewrite sub_same_b64. destruct s; reflexivity.
  - intros x Hx. destruct x as [s | s | | s m e]; try discriminate.
    destruct s; reflexivity.
Qed.

Lemma headline_of_single_observation_witness :
  percent_change (400 # 1) (400 # 1) == 0
  /\ is_zero (percent_change (of_Z 400 : b64) (of_Z 400)) = true
  /\ percent_change (of_Z 0 : b64) (of_Z 0) = S754_nan.
Proof.
  split; [| split].
  - apply (proj1 (proj2 headline_of_single_observation) (400 # 1)).
    discriminate.
  - apply (proj1 (proj2 (proj2 headline_of_single_observation))
                 (of_Z 400 : b64)).
    reflexivity.
  - apply (proj2 (proj2 (proj2 headline_of_single_observation))
                 (of_Z 0 : b64)).
    reflexivity.
Defined.

(** X7.  In exact arithmetic, against a positive past CPI the percent change
    of line 59 is positive exactly when the CPI rose, zero exactly when it
    is unchanged, and never below -100 for a non-negative latest CPI. *)
Theorem percent_change_sign (value_new value_old : Q) :
  (0 < value_old)%Q ->
  ((0 < percent_change value_new value_old)%Q <-> (value_old < value_new)%Q)
  /\ (percent_change value_new value_old == 0 <-> value_new == value_old)
  /\ ((0 <= value_new)%Q ->
      (- (100 # 1) <= percent_change value_new value_old)%Q).
Proof.
  intros Hpos.
  assert (Hnz : ~ value_old == 0) by (intros E; rewrite E in Hpos; lra).
  set (q := ((value_new - value_old) / value_old)%Q).
  assert (Hq : q * value_old == value_new - value_old)
    by (unfold q; field; exact Hnz).
  assert (Hp : percent_change value_new value_old == q * (100 # 1))
    by reflexivity.
  rewrite Hp.
  split; [| split].
  - split; intros Hx.
    + assert (0 < q)%Q by lra. nra.
    + assert (0 < q * value_old)%Q by lra.
      assert (0 < q)%Q by nra. lra.
  - split; intros Hx.
    + assert (q == 0) by lra. nra.
    + assert (Hz : q * value_old == 0) by lra.
      assert (q == 0) by nra. lra.
  - intros Hnew.
    assert (- value_old <= q * value_old)%Q by lra.
    assert (- (1 # 1) <= q)%Q by nra. lra.
Qed.

Lemma percent_change_sign_witness :
  ((0 < percent_change (400 # 1) (100 # 1))%Q <-> (100 # 1 < 400 # 1)%Q)
  /\ (percent_change (400 # 1) (100 # 1) == 0 <-> 400 # 1 == 100 # 1)
  /\ ((0 <= 400 # 1)%Q ->
      (- (100 # 1) <= percent_change (400 # 1) (100 # 1))%Q).
Proof.
  apply (percent_change_sign (400 # 1) (100 # 1)).
  reflexivity.
Defined.

(** ** Beyond the claims: the year selection *)

Lemma index_found (v : Z) (l : list Z) (i : nat) :
  index v l = Ok i ->
  nth_error l i = Some v
  /\ (forall j, (j < i)%nat -> nth_error l j <> Some v).
Proof.
  revert i. induction l as [| x t IH]; intros i; simpl.
  - discriminate.
  - destruct (x =? v) eqn:E.
    + intros Hi. injection Hi as <-. apply Z.eqb_eq in E. subst.
      split; [reflexivity | intros j Hj; lia].
    + destruct (index v t) as [i' | e]; simpl; [| discriminate].
      intros Hi. injection Hi as <-.
      destruct (IH i' eq_refl) as [Hn Hfirst].
      split; [exact Hn |].
      intros [| j] Hj; simpl.
      * apply Z.eqb_neq in E. congruence.
      * apply Hfirst. lia.
Qed.

Lemma index_In (v : Z) (l : list Z) :
  In v l -> exists i, index v l = Ok i.
Proof.
  induction l as [| x t IH]; simpl; intros Hin.
  - contradiction.
  - destruct (x =? v) eqn:E; [exists 0%nat; reflexivity |].
    destruct Hin as [-> | Hin]; [rewrite Z.eqb_refl in E; discriminate |].
    destruct (IH Hin) as [i Hi]. exists (S i). rewrite Hi. reflexivity.
Qed.

Lemma index_missing (v : Z) (l : list Z) :
  ~ In v l -> index v l = Err ValueError.
Proof.
  induction l as [| x t IH]; simpl; intros Hnot.
  - reflexivity.
  - destruct (x =? v) eqn:E.
    + apply Z.eqb_eq in E. tauto.
    + rewrite IH by tauto. reflexivity.
Qed.

(** X8.  [list.index] (line 80) yields a position exactly for the values of
    the list, the first position holding the value, and raises ValueError
    exactly for the other values. *)
Theorem index_first_position_or_value_error (v : Z) (l : list Z) :
  (In v l <-> exists i, index v l = Ok i)
  /\ (~ In v l <-> index v l = Err ValueError)
  /\ (forall i, index v l = Ok i ->
                nth_error l i = Some v
                /\ (forall j, (j < i)%nat -> nth_error l j <> Some v)).
Proof.
  split; [| split].
  - split; [apply index_In |].
    intros [i Hi]. apply index_found in Hi.
    apply nth_error_In with i. tauto.
  - split; [apply index_missing |].
    intros E Hin. apply index_In in Hin. destruct Hin as [i Hi].
    congruence.
  - apply index_found.
Qed.

Lemma past_cpi_nonempty {F : Type} `{Arith F} (df : frame F)
      (target : option date) :
  df <> [] -> exists p, past_cpi df target = Ok p.
Proof.
  intros Hne. unfold past_cpi.
  destruct (closest_past df target) as [| c0 ct] eqn:Ec.
  - destruct df as [| r0 rest]; [contradiction |].
    exists (CPI r0). reflexivity.
  - apply iloc_last_nonempty. discriminate.
Qed.

Lemma latest_cpi_nonempty {F : Type} `{Arith F} (df : frame F) :
  df <> [] -> exists c, latest_cpi df = Ok c.
Proof.
  intros Hne. destruct (iloc_last_nonempty df Hne) as [r E].
  exists (CPI r). apply latest_cpi_last. exact E.
Qed.

(** X9.  When the frame is not empty and has no observation in the calendar
    year ten years before the current one, every run stops at line 80 with
    a ValueError, whatever the widgets hold. *)
Theorem run_needs_year_ten_years_back
        (F : Type) (A : Arith F) (w : widgets F) (df : frame F) :
  df <> [] ->
  (forall r, In r df -> year (Date r) <> now_year w - 10) ->
  app w df = Err ValueError.
Proof.
  intros Hne Hnone. unfold app.
  destruct (latest_cpi_nonempty df Hne) as [latest ->].
  destruct (past_cpi_nonempty df (ten_years_ago df) Hne) as [past ->].
  simpl. rewrite index_missing; [reflexivity |].
  rewrite years_In, year_values_In.
  intros (r & Hr & Hy). exact (Hnone r Hr Hy).
Qed.

Lemma run_needs_year_ten_years_back_witness :
  app (mkwidgets 2026 default_selectbox (same_amounts (10000 # 1)) true)
      (two_points Q)
  = Err ValueError.
Proof.
  apply (run_needs_year_ten_years_back Q Q_arith
           (mkwidgets 2026 default_selectbox (same_amounts (10000 # 1))
                      true)
           (two_points Q)).
  - discriminate.
  - intros r [<- | [<- | []]]; discriminate.
Defined.

Lemma descending_positions (l : list Z) (i j : nat) (a b : Z) :
  StronglySorted Z.gt l ->
  nth_error l i = Some a -> nth_error l j = Some b ->
  (i < j)%nat -> b < a.
Proof.
  intros Hs. revert i j.
  induction Hs as [| x t Hs IH Hall]; intros i j Ha Hb Hij.
  - destruct i; discriminate.
  - destruct j as [| j']; [lia |].
    simpl in Hb.
    destruct i as [| i'].
    + simpl in Ha. injection Ha as <-.
      rewrite Forall_forall in Hall.
      apply nth_error_In in Hb. specialize (Hall b Hb). lia.
    + simpl in Ha. apply (IH i' j'); try assumption. lia.
Qed.

Lemma nth_error_tl {A : Type} (l : list A) (i : nat) :
  nth_error (tl l) i = nth_error l (S i).
Proof. destruct l; [destruct i |]; reflexivity. Qed.

(** X10.  The default index handed to the select box (line 80) is the
    position of the year ten years back in [years], while the options are
    [years[1:]].  So the option preselected is not that year but an earlier
    one, and there is no option at that index exactly when that year is the
    oldest year of the frame. *)
Theorem default_index_is_off_by_one
        (F : Type) (A : Arith F) (df : frame F) (now : Z) (i : nat) :
  index (now - 10) (years df) = Ok i ->
  nth_error (year_options df) i = nth_error (years df) (S i)
  /\ (forall y, nth_error (year_options df) i = Some y -> y < now - 10)
  /\ (nth_error (year_options df) i = None <->
      forall r, In r df -> now - 10 <= year (Date r)).
Proof.
  intros Hi.
  destruct (index_found _ _ _ Hi) as [Hnth _].
  pose proof (years_descending df) as Hdesc.
  assert (Hshift : nth_error (year_options df) i
                   = nth_error (years df) (S i))
    by apply nth_error_tl.
  split; [exact Hshift |]. split.
  - intros y Hy. rewrite Hshift in Hy.
    apply (descending_positions (years df) i (S i) (now - 10) y);
      auto.
  - rewrite Hshift. split.
    + intros Hnone r Hr.
      assert (Hy : In (year (Date r)) (years df)).
      { apply years_In, year_values_In. exists r. tauto. }
      apply In_nth_error in Hy. destruct Hy as [j Hj].
      destruct (Nat.lt_trichotomy j i) as [Hlt | [-> | Hgt]].
      * pose proof (descending_positions _ _ _ _ _ Hdesc Hj Hnth Hlt).
        lia.
      * rewrite Hnth in Hj. injection Hj as <-. lia.
      * apply nth_error_None in Hnone.
        assert (nth_error (years df) j = None)
          by (apply nth_error_None; lia).
        congruence.
    + intros Hall.
      destruct (nth_error (years df) (S i)) as [y |] eqn:Ey;
        [| reflexivity].
      exfalso.
      assert (Hlt : y < now - 10).
      { apply (descending_positions (years df) i (S i) (now - 10) y);
          auto. }
      apply nth_error_In in Ey.
      apply years_In, year_values_In in Ey.
      destruct Ey as (r & Hr & Hy).
      specialize (Hall r Hr). lia.
Qed.

Lemma default_index_is_off_by_one_witness :
  nth_error (year_options (two_points Q)) 0
  = nth_error (years (two_points Q)) 1
  /\ (forall y, nth_error (year_options (two_points Q)) 0 = Some y ->
                y < 2034 - 10)
  /\ (nth_error (year_options (two_points Q)) 0 = None <->
      forall r, In r (two_points Q) -> 2034 - 10 <= year (Date r)).
Proof.
  apply (default_index_is_off_by_one Q Q_arith (two_points Q) 2034 0).
  reflexivity.
Defined.




Lemma descending_same_elements (l1 l2 : list Z) :
  StronglySorted Z.gt l1 -> StronglySorted Z.gt l2 ->
  (forall y, In y l1 <-> In y l2) -> l1 = l2.
Proof.
  intros Hs1. revert l2.
  induction Hs1 as [| a t1 Hs1 IH Hall1]; intros l2 Hs2 Hsame.
  - destruct l2 as [| b t2]; [reflexivity |].
    exfalso. apply (proj2 (Hsame b)). left. reflexivity.
  - destruct Hs2 as [| b t2 Hs2 Hall2].
    + exfalso. apply (proj1 (Hsame a)). left. reflexivity.
    + rewrite Forall_forall in Hall1, Hall2.
      assert (E : a = b).
      { destruct (proj1 (Hsame a) (or_introl eq_refl)) as [Eb | Ha];
          [congruence |].
        destruct (proj2 (Hsame b) (or_introl eq_refl)) as [Ea | Hb];
          [congruence |].
        specialize (Hall1 b Hb). specialize (Hall2 a Ha). lia. }
      subst b. f_equal. apply IH; [exact Hs2 |].
      intros y. split; intros Hy.
      * destruct (proj1 (Hsame y) (or_intror Hy)) as [E | Hy2];
          [| exact Hy2].
        specialize (Hall1 y Hy). lia.
      * destruct (proj2 (Hsame y) (or_intror Hy)) as [E | Hy1];
          [| exact Hy1].
        specialize (Hall2 y Hy). lia.
Qed.

(** X12.  The years offered depend only on which rows the table has, not on
    their order: two frames with the same rows give the same list of years
    and the same options, so the sort of line 11 does not affect them. *)
Theorem years_do_not_depend_on_row_order
        (F : Type) (A : Arith F) (df df' : frame F) :
  Permutation df df' ->
  years df = years df' /\ year_options df = year_options df'.
Proof.
  intros Hp.
  assert (E : years df = years df').
  { apply descending_same_elements; try apply years_descending.
    intros y. rewrite !years_In, !year_values_In.
    split; intros (r & Hr & Hy); exists r; split; try exact Hy.
    - apply (Permutation_in _ Hp). exact Hr.
    - apply (Permutation_in _ (Permutation_sym Hp)). exact Hr. }
  split; [exact E |]. unfold year_options. rewrite E. reflexivity.
Qed.

Lemma years_do_not_depend_on_row_order_witness :
  years (rev (two_points Q)) = years (two_points Q)
  /\ year_options (rev (two_points Q)) = year_options (two_points Q).
Proof.
  apply (years_do_not_depend_on_row_order Q Q_arith
           (rev (two_points Q)) (two_points Q)).
  apply perm_swap.
Defined.

(** ** Beyond the claims: the yearly mean and the conversion *)

Lemma count_succ_Q (n : nat) :
  inject_Z (Z.of_nat (S n)) == inject_Z (Z.of_nat n) + 1.
Proof.
  rewrite Nat2Z.inj_succ. unfold Z.succ. rewrite inject_Z_plus.
  reflexivity.
Qed.

Lemma cpi_sum_bounds (df : frame Q) (y : Z) (lo hi : Q) :
  (forall r, In r df -> year (Date r) = y ->
             (lo <= CPI r)%Q /\ (CPI r <= hi)%Q) ->
  (inject_Z (Z.of_nat (count_of_year df y)) * lo
   <= cpi_sum_of_year df y)%Q
  /\ (cpi_sum_of_year df y
      <= inject_Z (Z.of_nat (count_of_year df y)) * hi)%Q.
Proof.
  induction df as [| r t IH]; intros Hb.
  - simpl. change (inject_Z 0) with 0%Q. lra.
  - assert (Ht : forall r', In r' t -> year (Date r') = y ->
                            (lo <= CPI r')%Q /\ (CPI r' <= hi)%Q)
      by (intros r' Hr'; apply Hb; right; exact Hr').
    specialize (IH Ht). simpl.
    destruct (year (Date r) =? y) eqn:E; [| exact IH].
    apply Z.eqb_eq in E.
    destruct (Hb r (or_introl eq_refl) E) as [Hlo Hhi].
    rewrite count_succ_Q. lra.
Qed.

Lemma count_positive {F : Type} (df : frame F) (y : Z) :
  (exists r, In r df /\ year (Date r) = y) ->
  (0 < inject_Z (Z.of_nat (count_of_year df y)))%Q.
Proof.
  intros (r & Hr & Hy).
  assert (Hpos : (0 < count_of_year df y)%nat).
  { induction df as [| a t IH]; [contradiction |].
    simpl. destruct Hr as [-> | Hr].
    - rewrite Hy, Z.eqb_refl. lia.
    - specialize (IH Hr). destruct (year (Date a) =? y); lia. }
  change 0%Q with (inject_Z 0). rewrite <- Zlt_Qlt. lia.
Qed.

(** X13.  In exact arithmetic the CPI of a comparison year (line 84) lies
    between any two bounds that hold for all the observations of that year.
    In particular, when the observations of the year all carry one value,
    as with one observation per year, it is that value. *)
Theorem past_cpi_year_within_bounds
        (df : frame Q) (y : Z) (lo hi : Q) :
  (exists r, In r df /\ year (Date r) = y) ->
  (forall r, In r df -> year (Date r) = y ->
             (lo <= CPI r)%Q /\ (CPI r <= hi)%Q) ->
  exists m, past_cpi_year df y = Ok m
            /\ (lo <= m)%Q /\ (m <= hi)%Q
            /\ (lo == hi -> m == lo).
Proof.
  intros Hex Hb.
  exists (mean (year_cpis df y)).
  split; [apply past_cpi_year_found, year_values_In; exact Hex |].
  pose proof (count_positive df y Hex) as Hn.
  destruct (cpi_sum_bounds df y lo hi Hb) as [Hlo Hhi].
  assert (Hm : mean (year_cpis df y)
               * inject_Z (Z.of_nat (count_of_year df y))
               == cpi_sum_of_year df y).
  { rewrite mean_year_cpis. unfold spec_average_for_year. field.
    intros E. rewrite E in Hn. lra. }
  set (m := mean (year_cpis df y)) in *.
  set (n := inject_Z (Z.of_nat (count_of_year df y))) in *.
  assert (H1 : (lo <= m)%Q) by nra.
  assert (H2 : (m <= hi)%Q) by nra.
  repeat split; try assumption.
  intros E. lra.
Qed.

Lemma past_cpi_year_within_bounds_witness :
  exists m, past_cpi_year (one_year Q) 2015 = Ok m
            /\ (90 # 1 <= m)%Q /\ (m <= 110 # 1)%Q
            /\ (90 # 1 == 110 # 1 -> m == 90 # 1).
Proof.
  apply (past_cpi_year_within_bounds (one_year Q) 2015 (90 # 1) (110 # 1)).
  - exists (mkrow (mkdate 2015 3 1) (of_Z 90)).
    split; [left; reflexivity | reflexivity].
  - intros r [<- | [<- | []]] _; split; discriminate.
Defined.

(** X14.  In exact arithmetic the conversion of lines 123 and 147 is undone
    by the conversion with the two CPI values exchanged: an amount taken to
    the comparison year and back is the amount itself. *)
Theorem conversion_round_trip (amount cpi_year latest : Q) :
  ~ cpi_year == 0 -> ~ latest == 0 ->
  total_past (total_past amount cpi_year latest) latest cpi_year == amount
  /\ old_value (old_value amount cpi_year latest) latest cpi_year
     == amount.
Proof.
  intros Hy Hl. unfold total_past, old_value. simpl.
  split; field; split; assumption.
Qed.

Lemma conversion_round_trip_witness :
  total_past (total_past (500 # 1) (11 # 10) (7 # 1)) (7 # 1) (11 # 10)
  == 500 # 1
  /\ old_value (old_value (500 # 1) (11 # 10) (7 # 1)) (7 # 1) (11 # 10)
     == 500 # 1.
Proof.
  apply (conversion_round_trip (500 # 1) (11 # 10) (7 # 1));
    discriminate.
Defined.

(** X15.  In exact arithmetic, for a positive latest CPI: a positive amount
    is worth less in the comparison year exactly when the CPI of that year
    is below the latest CPI, and the same exactly when the two are equal;
    for a non-negative CPI of the year, a larger amount converts to a larger
    or equal value and a non-negative amount to a non-negative value. *)
Theorem conversion_follows_cpi_ratio (amount cpi_year latest : Q) :
  (0 < latest)%Q ->
  ((0 < amount)%Q ->
   ((total_past amount cpi_year latest < amount)%Q
    <-> (cpi_year < latest)%Q)
   /\ (total_past amount cpi_year latest == amount
       <-> cpi_year == latest))
  /\ ((0 <= cpi_year)%Q ->
      (forall amount', (amount <= amount')%Q ->
                       (total_past amount cpi_year latest
                        <= total_past amount' cpi_year latest)%Q)
      /\ ((0 <= amount)%Q ->
          (0 <= total_past amount cpi_year latest)%Q)).
Proof.
  intros Hl.
  assert (Hnz : ~ latest == 0) by (intros E; rewrite E in Hl; lra).
  assert (Hv : forall a, total_past a cpi_year latest * latest
                         == a * cpi_year)
    by (intros a; unfold total_past; simpl; field; exact Hnz).
  split.
  - intros Ha. pose proof (Hv amount) as Ht.
    set (v := total_past amount cpi_year latest) in *.
    split; split; intros Hx; nra.
  - intros Hy. split.
    + intros amount' Hle.
      pose proof (Hv amount) as Ht. pose proof (Hv amount') as Ht'.
      set (v := total_past amount cpi_year latest) in *.
      set (v' := total_past amount' cpi_year latest) in *.
      assert ((v' - v) * latest == (amount' - amount) * cpi_year) by lra.
      assert (0 <= (amount' - amount) * cpi_year)%Q by nra.
      nra.
    + intros Ha. pose proof (Hv amount) as Ht.
      set (v := total_past amount cpi_year latest) in *.
      assert (0 <= amount * cpi_year)%Q by nra.
      nra.
Qed.

Lemma conversion_follows_cpi_ratio_witness :
  (((total_past (60000 # 1) (100 # 1) (400 # 1) < 60000 # 1)%Q
    <-> (100 # 1 < 400 # 1)%Q)
   /\ (total_past (60000 # 1) (100 # 1) (400 # 1) == 60000 # 1
       <-> 100 # 1 == 400 # 1))
  /\ ((forall amount', (60000 # 1 <= amount')%Q ->
                       (total_past (60000 # 1) (100 # 1) (400 # 1)
                        <= total_past amount' (100 # 1) (400 # 1))%Q)
      /\ ((0 <= 60000 # 1)%Q ->
          (0 <= total_past (60000 # 1) (100 # 1) (400 # 1))%Q)).
Proof.
  destruct (conversion_follows_cpi_ratio (60000 # 1) (100 # 1) (400 # 1))
    as [H1 H2].
  - reflexivity.
  - split; [apply H1; reflexivity | apply H2; discriminate].
Defined.

(** X16.  In binary64 an amount of zero converts to zero whenever the two
    CPI values are finite and not zero, and to positive zero when they are
    positive: an empty category never shows a NaN or a non-zero value. *)
Theorem zero_amount_converts_to_zero (amount cpi_year latest : b64) :
  is_zero amount = true ->
  is_finite_nonzero cpi_year = true ->
  is_finite_nonzero latest = true ->
  is_zero (old_value amount cpi_year latest) = true
  /\ is_zero (total_past amount cpi_year latest) = true
  /\ (amount = S754_zero false ->
      SFltb (S754_zero false) cpi_year = true ->
      SFltb (S754_zero false) latest = true ->
      old_value amount cpi_year latest = S754_zero false).
Proof.
  intros Ha Hy Hl.
  destruct amount as [sa | | |]; try discriminate.
  destruct cpi_year as [| | | sy my ey]; try discriminate.
  destruct latest as [| | | sl ml el]; try discriminate.
  split; [reflexivity |]. split; [reflexivity |].
  intros E Hpy Hpl. injection E as ->.
  destruct sy, sl; try discriminate; reflexivity.
Qed.

Lemma zero_amount_converts_to_zero_witness :
  is_zero (old_value (of_Z 0 : b64) (dec 11 1) (of_Z 7)) = true
  /\ is_zero (total_past (of_Z 0 : b64) (dec 11 1) (of_Z 7)) = true
  /\ old_value (of_Z 0 : b64) (dec 11 1) (of_Z 7) = S754_zero false.
Proof.
  destruct (zero_amount_converts_to_zero (of_Z 0) (dec 11 1) (of_Z 7))
    as (H1 & H2 & H3); try (vm_compute; reflexivity).
  split; [exact H1 |]. split; [exact H2 |].
  apply H3; vm_compute; reflexivity.
Defined.

(** ** Beyond the claims: a whole run *)

Lemma latest_cpi_error {F : Type} `{Arith F} (df : frame F) (e : error) :
  latest_cpi df = Err e -> df = [] /\ e = EmptySeries.
Proof.
  intros E. destruct df as [| r t].
  - split; [reflexivity |]. unfold latest_cpi in E. simpl in E. congruence.
  - destruct (latest_cpi_nonempty (r :: t)) as [c Hc]; [discriminate |].
    congruence.
Qed.

Lemma index_error (v : Z) (l : list Z) (e : error) :
  index v l = Err e -> e = ValueError /\ ~ In v l.
Proof.
  intros E.
  assert (Hnot : ~ In v l).
  { intros Hin. apply index_In in Hin. destruct Hin as [i Hi]. congruence. }
  split; [| exact Hnot].
  rewrite (index_missing v l Hnot) in E. congruence.
Qed.

Lemma lookup_year_error {F : Type} `{Arith F} (df : frame F)
      (cy : option Z) (e : error) :
  lookup_year df cy = Err e ->
  e = YearNotFound
  /\ forall y, cy = Some y -> forall r, In r df -> year (Date r) <> y.
Proof.
  destruct cy as [y |]; simpl.
  - unfold past_cpi_year.
    destruct (existsb (fun v => v =? y) (year_values df)) eqn:E;
      [discriminate |].
    intros He. split; [congruence |].
    intros y' Hy' r Hr Hyr. injection Hy' as <-.
    assert (Hin : In y (year_values df))
      by (apply year_values_In; exists r; tauto).
    apply year_member in Hin. congruence.
  - intros He. split; [congruence | discriminate].
Qed.

(** X17.  A run that completes had a non-empty frame with an observation in
    the year ten years before the current one.  Its headline is the ten-year
    change of the frame, whatever the widgets hold.  It shows a prediction
    only when the button is pressed, and then no unavailable-year message;
    without the button it shows no prediction. *)
Theorem completed_run_guarantees
        (F : Type) (A : Arith F) (w : widgets F) (df : frame F)
        (pg : page F) :
  app w df = Ok pg ->
  df <> []
  /\ (exists r, In r df /\ year (Date r) = now_year w - 10)
  /\ cpi_change df = Ok (headline pg)
  /\ (exists i, index (now_year w - 10) (years df) = Ok i
                /\ selectbox w (year_options df) i
                   = Ok (comparison_year pg))
  /\ (button w = true ->
      message pg = None /\ exists p, predicted pg = Some p)
  /\ (button w = false -> predicted pg = None).
Proof.
  unfold app, cpi_change.
  destruct (latest_cpi df) as [latest | e1] eqn:El; simpl; [| discriminate].
  destruct (past_cpi df (ten_years_ago df)) as [past | e2]; simpl;
    [| discriminate].
  destruct (index (now_year w - 10) (years df)) as [i | e3] eqn:Ei; simpl;
    [| discriminate].
  destruct (selectbox w (year_options df) i) as [cy | e4] eqn:Es; simpl;
    [| discriminate].
  intros Hpg.
  assert (Hne : df <> []).
  { intros ->. unfold latest_cpi in El. discriminate El. }
  assert (Hyear : exists r, In r df /\ year (Date r) = now_year w - 10).
  { apply year_values_In, years_In.
    apply nth_error_In with i. apply index_found. exact Ei. }
  split; [exact Hne |]. split; [exact Hyear |].
  destruct (lookup_year df cy) as [cpi_year | e5].
  - unfold predict in Hpg.
    destruct (button w).
    + destruct (isfinite (total_today (category_inputs w)));
        simpl in Hpg; [| discriminate].
      injection Hpg as <-. simpl.
      split; [reflexivity |].
      split; [exists i; split; [reflexivity | exact Es] |].
      split; [intros _; split; [reflexivity | eexists; reflexivity] |].
      discriminate.
    + injection Hpg as <-. simpl.
      split; [reflexivity |].
      split; [exists i; split; [reflexivity | exact Es] |].
      split; [discriminate | reflexivity].
  - destruct (button w); [discriminate |].
    injection Hpg as <-. simpl.
    split; [reflexivity |].
    split; [exists i; split; [reflexivity | exact Es] |].
    split; [discriminate | reflexivity].
Qed.

Lemma completed_run_guarantees_witness :
  exists pg,
    app (mkwidgets 2034 default_selectbox (same_amounts (10000 # 1)) true)
        (two_points Q) = Ok pg
    /\ two_points Q <> []
    /\ (exists r, In r (two_points Q) /\ year (Date r) = 2034 - 10)
    /\ cpi_change (two_points Q) = Ok (headline pg)
    /\ (exists i, index (2034 - 10) (years (two_points Q)) = Ok i
                  /\ default_selectbox (year_options (two_points Q)) i
                     = Ok (comparison_year pg))
    /\ (true = true ->
        message pg = None /\ exists p, predicted pg = Some p)
    /\ (true = false -> predicted pg = None).
Proof.
  destruct (app (mkwidgets 2034 default_selectbox
                           (same_amounts (10000 # 1)) true)
                (two_points Q)) as [pg | e] eqn:E.
  - exists pg. split; [reflexivity |].
    exact (completed_run_guarantees Q Q_arith
             (mkwidgets 2034 default_selectbox (same_amounts (10000 # 1))
                        true)
             (two_points Q) pg E).
  - vm_compute in E. discriminate E.
Defined.

(** X18.  The prediction a run shows is built from the latest CPI of the
    frame and the mean CPI of the year the select box returned: the total
    of the entered amounts, that total converted, and one converted value
    per entry, under the same labels in the same order. *)
Theorem shown_prediction_content
        (F : Type) (A : Arith F) (w : widgets F) (df : frame F)
        (pg : page F) (p : prediction F) :
  app w df = Ok pg -> predicted pg = Some p ->
  exists y latest,
    comparison_year pg = Some y
    /\ In y (year_values df)
    /\ latest_cpi df = Ok latest
    /\ isfinite (total_today (category_inputs w)) = true
    /\ shown_total_today p = total_today (category_inputs w)
    /\ shown_total_past p
       = total_past (total_today (category_inputs w))
                    (mean (year_cpis df y)) latest
    /\ shown_old_values p
       = old_values (category_inputs w) (mean (year_cpis df y)) latest
    /\ map fst (shown_old_values p) = map fst (category_inputs w).
Proof.
  unfold app.
  destruct (latest_cpi df) as [latest | e1] eqn:El; simpl; [| discriminate].
  destruct (past_cpi df (ten_years_ago df)) as [past | e2]; simpl;
    [| discriminate].
  destruct (index (now_year w - 10) (years df)) as [i | e3]; simpl;
    [| discriminate].
  destruct (selectbox w (year_options df) i) as [cy | e4]; simpl;
    [| discriminate].
  destruct (lookup_year df cy) as [cpi_year | e5] eqn:Ey.
  - unfold predict.
    destruct (button w).
    + destruct (isfinite (total_today (category_inputs w))) eqn:Efin;
        simpl; [| discriminate].
      intros Hpg Hp. injection Hpg as <-. simpl in Hp.
      injection Hp as <-. simpl.
      destruct cy as [y |]; [| discriminate Ey].
      simpl in Ey. unfold past_cpi_year in Ey.
      destruct (existsb (fun v => v =? y) (year_values df)) eqn:Em;
        [| discriminate].
      injection Ey as <-.
      exists y, latest.
      split; [reflexivity |].
      split; [apply year_member; exact Em |].
      repeat split.
      unfold old_values. rewrite map_map. reflexivity.
    + intros Hpg Hp. injection Hpg as <-. discriminate Hp.
  - destruct (button w); [discriminate |].
    intros Hpg Hp. injection Hpg as <-. discriminate Hp.
Qed.

Lemma shown_prediction_content_witness :
  exists pg p,
    app (mkwidgets 2034 default_selectbox (same_amounts (10000 # 1)) true)
        (two_points Q) = Ok pg
    /\ predicted pg = Some p
    /\ exists y latest,
         comparison_year pg = Some y
         /\ In y (year_values (two_points Q))
         /\ latest_cpi (two_points Q) = Ok latest
         /\ isfinite (total_today (same_amounts (10000 # 1))) = true
         /\ shown_total_today p = total_today (same_amounts (10000 # 1))
         /\ shown_total_past p
            = total_past (total_today (same_amounts (10000 # 1)))
                         (mean (year_cpis (two_points Q) y)) latest
         /\ shown_old_values p
            = old_values (same_amounts (10000 # 1))
                         (mean (year_cpis (two_points Q) y)) latest
         /\ map fst (shown_old_values p)
            = map fst (same_amounts (10000 # 1)).
Proof.
  destruct (app (mkwidgets 2034 default_selectbox
                           (same_amounts (10000 # 1)) true)
                (two_points Q)) as [pg | e] eqn:E;
    [| vm_compute in E; discriminate E].
  destruct (predicted pg) as [p |] eqn:Ep.
  - exists pg, p. split; [reflexivity |]. split; [exact Ep |].
    exact (shown_prediction_content Q Q_arith
             (mkwidgets 2034 default_selectbox (same_amounts (10000 # 1))
                        true)
             (two_points Q) pg p E Ep).
  - exfalso. vm_compute in E. injection E as <-. discriminate Ep.
Defined.

(** X19.  A run can stop in five ways only: on the empty frame, at the
    first lookup; at line 80 when the frame has no observation in the year
    ten years back; inside the select box; at the unbound [past_cpi_year]
    when the button is pressed although the value returned by the select
    box is no year of the frame; or at [int(total_today)] when the button
    is pressed and the total is not finite. *)
Theorem run_failures
        (F : Type) (A : Arith F) (w : widgets F) (df : frame F)
        (e : error) :
  app w df = Err e ->
  (e = EmptySeries /\ df = [])
  \/ (e = ValueError /\ df <> []
      /\ forall r, In r df -> year (Date r) <> now_year w - 10)
  \/ (exists i, index (now_year w - 10) (years df) = Ok i
                /\ selectbox w (year_options df) i = Err e)
  \/ (e = NameError /\ button w = true
      /\ exists i cy,
           selectbox w (year_options df) i = Ok cy
           /\ lookup_year df cy = Err YearNotFound
           /\ forall y, cy = Some y ->
                        forall r, In r df -> year (Date r) <> y)
  \/ (e = IntOfNonFinite /\ button w = true
      /\ isfinite (total_today (category_inputs w)) = false).
Proof.
  unfold app.
  destruct (latest_cpi df) as [latest | e1] eqn:El; simpl.
  2: { intros He. injection He as <-.
       apply latest_cpi_error in El. left. tauto. }
  assert (Hne : df <> []).
  { intros ->. unfold latest_cpi in El. discriminate El. }
  destruct (past_cpi_nonempty df (ten_years_ago df) Hne) as [past ->].
  simpl.
  destruct (index (now_year w - 10) (years df)) as [i | e3] eqn:Ei; simpl.
  2: { intros He. injection He as <-.
       apply index_error in Ei. destruct Ei as [-> Hnot].
       right. left. split; [reflexivity |]. split; [exact Hne |].
       intros r Hr Hy. apply Hnot.
       apply years_In, year_values_In. exists r. tauto. }
  destruct (selectbox w (year_options df) i) as [cy | e4] eqn:Es; simpl.
  2: { intros He. injection He as <-.
       right. right. left. exists i. tauto. }
  destruct (lookup_year df cy) as [cpi_year | e5] eqn:Ey.
  - unfold predict.
    destruct (button w); [| discriminate].
    destruct (isfinite (total_today (category_inputs w))) eqn:Efin; simpl;
      [discriminate |].
    intros He. injection He as <-.
    right. right. right. right. tauto.
  - destruct (button w); [| discriminate].
    intros He. injection He as <-.
    destruct (lookup_year_error _ _ _ Ey) as [-> Hnone].
    right. right. right. left.
    split; [reflexivity |]. split; [reflexivity |].
    exists i, cy. tauto.
Qed.

Lemma run_failures_witness :
  (ValueError = EmptySeries /\ two_points Q = [])
  \/ (ValueError = ValueError /\ two_points Q <> []
      /\ forall r, In r (two_points Q) -> year (Date r) <> 2026 - 10)
  \/ (exists i, index (2026 - 10) (years (two_points Q)) = Ok i
                /\ default_selectbox (year_options (two_points Q)) i
                   = Err ValueError)
  \/ (ValueError = NameError /\ true = true
      /\ exists i cy,
           default_selectbox (year_options (two_points Q)) i = Ok cy
           /\ lookup_year (two_points Q) cy = Err YearNotFound
           /\ forall y, cy = Some y ->
                        forall r, In r (two_points Q) ->
                                  year (Date r) <> y)
  \/ (ValueError = IntOfNonFinite /\ true = true
      /\ isfinite (total_today (same_amounts (10000 # 1))) = false).
Proof.
  apply (run_failures Q Q_arith
           (mkwidgets 2026 default_selectbox (same_amounts (10000 # 1))
                      true)
           (two_points Q) ValueError).
  reflexivity.
Defined.

(** ** Beyond the claims: the category inputs *)

Lemma category_key_category (c1 c2 s1 s2 : string) :
  In c1 (List.concat column_categories) ->
  In c2 (List.concat column_categories) ->
  category_key c1 s1 = category_key c2 s2 -> c1 = c2.
Proof.
  unfold category_key. simpl.
  intros H1 H2 E.
  repeat (destruct H1 as [<- | H1]; [| try contradiction]);
    repeat (destruct H2 as [<- | H2]; [| try contradiction]);
    first [reflexivity | simpl in E; discriminate E].
Qed.

Lemma dict_get_of_map {V : Type} (key : string -> string)
      (val : string -> V) (l : list string) (c : string) :
  (forall a b, In a l -> In b l -> key a = key b -> a = b) ->
  In c l ->
  dict_get (key c) (map (fun a => (key a, val a)) l) = Some (val c).
Proof.
  induction l as [| x t IH]; intros Hinj Hc.
  - contradiction.
  - simpl. destruct (String.eqb (key x) (key c)) eqn:E.
    + apply String.eqb_eq in E.
      rewrite (Hinj x c (or_introl eq_refl) Hc E). reflexivity.
    + destruct Hc as [-> | Hc]; [rewrite String.eqb_refl in E;
                                 discriminate |].
      apply IH; [| exact Hc].
      intros a b Ha Hb. apply Hinj; right; assumption.
Qed.

Lemma NoDup_map_injective {A B : Type} (f : A -> B) (l : list A) :
  (forall a b, In a l -> In b l -> f a = f b -> a = b) ->
  NoDup l -> NoDup (map f l).
Proof.
  intros Hinj Hnd. induction Hnd as [| x t Hx Hnd IH]; simpl.
  - constructor.
  - constructor.
    + rewrite in_map_iff. intros (y & E & Hy).
      assert (y = x)
        by (apply Hinj; [right; exact Hy | left; reflexivity | exact E]).
      subst y. contradiction.
    + apply IH. intros a b Ha Hb. apply Hinj; right; assumption.
Qed.

(** X20.  Whatever subcategories are selected and whatever amounts are
    entered, the three loops of lines 101-118 meet no missing key and leave
    [category_inputs] with one entry per category of the table, in the
    order of the table: the keys are pairwise different, so no entry
    replaces another, each entered amount is found under the key of its
    category, and the total is taken over all seven amounts. *)
Theorem category_inputs_hold_every_amount
        (F : Type) (A : Arith F) (ui : category_widgets F) :
  exists inputs,
    build_category_inputs ui = Some inputs
    /\ inputs
       = map (fun cs =>
                (category_key (fst cs) (subcategory ui (fst cs) (snd cs)),
                 amount_entered ui (fst cs)))
             categories
    /\ List.length inputs = 7%nat
    /\ NoDup (map fst inputs)
    /\ map snd inputs = map (amount_entered ui) (map fst categories)
    /\ (forall cat subs,
           In (cat, subs) categories ->
           dict_get (category_key cat (subcategory ui cat subs)) inputs
           = Some (amount_entered ui cat))
    /\ total_today inputs
       = sum (map (amount_entered ui) (map fst categories)).
Proof.
  eexists. split; [vm_compute; reflexivity |].
  set (sub_of := fun cat : string =>
                   match dict_get cat categories with
                   | Some subs => subcategory ui cat subs
                   | None => EmptyString
                   end).
  set (key := fun cat => category_key cat (sub_of cat)).
  assert (Hinj : forall a b,
             In a (List.concat column_categories) ->
             In b (List.concat column_categories) ->
             key a = key b -> a = b).
  { intros a b Ha Hb. apply category_key_category; assumption. }
  assert (Hshape :
            map (fun a => (key a, amount_entered ui a))
                (List.concat column_categories)
            = map (fun cs =>
                     (category_key (fst cs)
                                   (subcategory ui (fst cs) (snd cs)),
                      amount_entered ui (fst cs)))
                  categories)
    by reflexivity.
  split; [vm_compute; reflexivity |].
  split; [reflexivity |].
  split.
  - change (NoDup (map fst
                     (map (fun cs =>
                             (category_key (fst cs)
                                (subcategory ui (fst cs) (snd cs)),
                              amount_entered ui (fst cs)))
                          categories))).
    rewrite <- Hshape, map_map. simpl fst.
    apply NoDup_map_injective; [exact Hinj |].
    repeat constructor; simpl; intuition discriminate.
  - split; [reflexivity |]. split; [| reflexivity].
    intros cat subs Hin.
    change (dict_get (category_key cat (subcategory ui cat subs))
              (map (fun cs =>
                      (category_key (fst cs)
                         (subcategory ui (fst cs) (snd cs)),
                       amount_entered ui (fst cs)))
                   categories)
            = Some (amount_entered ui cat)).
    rewrite <- Hshape.
    assert (Hcat : In cat (List.concat column_categories)
                   /\ sub_of cat = subcategory ui cat subs).
    { simpl in Hin.
      repeat (destruct Hin as [Hin | Hin];
              [injection Hin as <- <-; split;
               [simpl; tauto | reflexivity] |]).
      contradiction. }
    destruct Hcat as [Hc <-].
    apply (dict_get_of_map key (amount_entered ui)
             (List.concat column_categories) cat Hinj Hc).
Qed.
